(** * resource-service: query builders and the resource service

    A shallow embedding of [resource-builders.ts] ([GetQuery], [SearchQuery])
    and [resource.service.ts] ([ResourceService]), and the properties of
    the request building, materialization and write-merge code.

    Conventions of the embedding:
    - a builder is a record; a modifier that mutates [this] and returns it
      is a function from the record to the updated record;
    - a JS object used as a map is a [gmap string _]; objects that callers
      hold by reference live in a heap [gmap loc obj]; the header object
      of a builder, whose key order [Object.keys] exposes, is an
      association list in insertion order;
    - strings are byte strings; [toLowerCase] acts on the ASCII letters;
    - a TypeScript [number] is an integer [Z] that prints in plain decimal
      (no NaN, no fractions), so a number is falsy exactly when it is [0];
    - the HTTP transport is external: a service method receives the
      transport's answer to the one request it issues as an argument
      ([Success body] or [Failure e]) and records the request in a trace. *)

From Stdlib Require Import ZArith String Ascii List.
From stdpp Require Import base option list gmap fin_maps strings pretty sorting.

Local Open Scope Z_scope.
Local Open Scope string_scope.
Local Open Scope list_scope.

Set Warnings "-register-all".

(** ** JavaScript values *)

Module Js.

Definition loc := positive.

(** Field values of resources and raw records. A nested object or array
    is a reference: a shallow copy copies the reference. *)
Inductive val :=
| VUndefined
| VNull
| VBool (b : bool)
| VNum (n : Z)
| VStr (s : string)
| VRef (l : loc).

Abbreviation obj := (gmap string val).

(** [number | string], the type of identifiers and of filter values. *)
Inductive scalar :=
| Num (n : Z)
| Str (s : string).

(** The bound service methods handed to the builders as [Function]. *)
Inductive handler := HList | HGet | HSearch.

(** What a builder constructor can receive at run time. The declared
    types are [string], [number | string | Array<number | string>] and
    [Function]; a call site decides which value lands in which
    parameter. *)
Inductive dyn :=
| DScalar (x : scalar)
| DArray (xs : list scalar)
| DFunction (h : handler).

Definition DString (s : string) : dyn := DScalar (Str s).
Definition DNumber (n : Z) : dyn := DScalar (Num n).

#[global] Instance val_eq_dec : EqDecision val.
Proof. solve_decision. Defined.
#[global] Instance scalar_eq_dec : EqDecision scalar.
Proof. solve_decision. Defined.
#[global] Instance handler_eq_dec : EqDecision handler.
Proof. solve_decision. Defined.
#[global] Instance dyn_eq_dec : EqDecision dyn.
Proof. solve_decision. Defined.

(** ToBoolean *)
Definition truthy (v : val) : bool :=
  match v with
  | VUndefined | VNull => false
  | VBool b => b
  | VNum n => negb (Z.eqb n 0)
  | VStr s => negb (bool_decide (s = EmptyString))
  | VRef _ => true
  end.

Definition scalar_truthy (x : scalar) : bool :=
  match x with
  | Num n => negb (Z.eqb n 0)
  | Str s => negb (bool_decide (s = EmptyString))
  end.

(** [if (n)] on an optional number: [undefined] and [0] are falsy. *)
Definition number_truthy (n : option Z) : bool :=
  match n with
  | Some n => negb (Z.eqb n 0)
  | None => false
  end.

(** Number.prototype.toString on an integer: decimal digits, a leading
    minus sign for negatives. *)
Definition number_toString (n : Z) : string := pretty n.

Definition scalar_toString (x : scalar) : string :=
  match x with
  | Num n => number_toString n
  | Str s => s
  end.

(** Array.prototype.join *)
Definition join (sep : string) (xs : list string) : string :=
  String.concat sep xs.

(** [value.toString()]: an array joins its elements with a comma; a
    bound function prints as native code. *)
Definition dyn_toString (v : dyn) : string :=
  match v with
  | DScalar x => scalar_toString x
  | DArray xs => join "," (map scalar_toString xs)
  | DFunction _ => "function () { [native code] }"
  end.

(** String concatenation [s + v] converts [v] with ToString. *)
Definition val_toString (v : val) : string :=
  match v with
  | VUndefined => "undefined"
  | VNull => "null"
  | VBool true => "true"
  | VBool false => "false"
  | VNum n => number_toString n
  | VStr s => s
  | VRef _ => "[object Object]"
  end.

(** *** JSON.stringify on arrays of strings *)

Inductive json :=
| JString (s : string)
| JArray (xs : list json).

Definition hex_digit (n : N) : ascii :=
  match n with
  | 0 => "0" | 1 => "1" | 2 => "2" | 3 => "3" | 4 => "4" | 5 => "5"
  | 6 => "6" | 7 => "7" | 8 => "8" | 9 => "9" | 10 => "a" | 11 => "b"
  | 12 => "c" | 13 => "d" | 14 => "e" | _ => "f"
  end%N%char.

Definition dquote : ascii := ascii_of_nat 34.
Definition backslash : ascii := ascii_of_nat 92.

(** QuoteJSONString, one code unit at a time. *)
Definition json_escape (c : ascii) : string :=
  let n := N_of_ascii c in
  if (n =? 34)%N then String backslash (String dquote EmptyString)
  else if (n =? 92)%N then String backslash (String backslash EmptyString)
  else if (n =? 8)%N then String backslash "b"
  else if (n =? 9)%N then String backslash "t"
  else if (n =? 10)%N then String backslash "n"
  else if (n =? 12)%N then String backslash "f"
  else if (n =? 13)%N then String backslash "r"
  else if (n <? 32)%N then
    String backslash
      ("u00" +:+ String (hex_digit (n / 16)) (String (hex_digit (n mod 16)) EmptyString))
  else String c EmptyString.

Fixpoint json_escape_string (s : string) : string :=
  match s with
  | EmptyString => EmptyString
  | String c s' => json_escape c +:+ json_escape_string s'
  end.

Definition json_quote (s : string) : string :=
  String dquote (json_escape_string s +:+ String dquote EmptyString).

Fixpoint JSON_stringify (j : json) : string :=
  match j with
  | JString s => json_quote s
  | JArray xs => "[" +:+ join "," (map JSON_stringify xs) +:+ "]"
  end.

End Js.

(** ** The transport's request description *)

Module Http.
Import Js.

(** [HttpParams] of [@angular/common/http]: an insertion-ordered map from
    parameter names to values. [set(param, value)] replaces the value for
    a parameter: one that is already present keeps its place and gets the
    new value, a new one is added at the end. Keys are [dyn] because
    [SearchQuery] passes its [field] through unchanged. *)
Definition HttpParams := list (dyn * string).

Definition new_HttpParams : HttpParams := [].

Fixpoint set (param : dyn) (v : string) (ps : HttpParams) : HttpParams :=
  match ps with
  | [] => [(param, v)]
  | (k, w) :: ps' =>
      if decide (k = param) then (k, v) :: ps' else (k, w) :: set param v ps'
  end.

Fixpoint get (param : dyn) (ps : HttpParams) : option string :=
  match ps with
  | [] => None
  | (k, w) :: ps' => if decide (k = param) then Some w else get param ps'
  end.

Definition keys (ps : HttpParams) : list dyn := ps.*1.

(** [String.prototype.toLowerCase], on ASCII. *)
Definition lower_ascii (c : ascii) : ascii :=
  let n := N_of_ascii c in
  if ((65 <=? n) && (n <=? 90))%N then ascii_of_N (n + 32) else c.

Fixpoint toLowerCase (s : string) : string :=
  match s with
  | EmptyString => EmptyString
  | String c s' => String (lower_ascii c) (toLowerCase s')
  end.

(** [HttpHeaders] of [@angular/common/http]: an insertion-ordered map
    keyed by the lower-cased name, which remembers the spelling under
    which a name was first seen. [set(name, value)] replaces the value of
    a header whose name equals [name] ignoring case, where it stands, and
    adds a new header at the end otherwise. *)
Definition HttpHeaders := list (string * string).

Definition new_HttpHeaders : HttpHeaders := [].

Fixpoint set_header (name value : string) (hs : HttpHeaders) : HttpHeaders :=
  match hs with
  | [] => [(name, value)]
  | (n, w) :: hs' =>
      if decide (toLowerCase n = toLowerCase name) then (n, value) :: hs'
      else (n, w) :: set_header name value hs'
  end.

(** [headers.get(name)] *)
Fixpoint get_header (name : string) (hs : HttpHeaders) : option string :=
  match hs with
  | [] => None
  | (n, w) :: hs' =>
      if decide (toLowerCase n = toLowerCase name) then Some w else get_header name hs'
  end.

Inductive verb := GET | POST | PUT | PATCH | DELETE.

Definition FormData := list (string * string).

(** The body argument of [post], [put] and [patch]: a resource passed by
    reference, [null], or form data. *)
Inductive payload :=
| BodyResource (l : loc)
| BodyNull
| BodyForm (f : FormData).

Record Request := {
  rq_verb : verb;
  rq_url : string;
  rq_body : option payload;
  rq_params : option HttpParams;
  rq_headers : option HttpHeaders
}.

#[global] Instance verb_eq_dec : EqDecision verb.
Proof. solve_decision. Defined.

End Http.

(** ** resource-builders.ts *)

(** A call [f(a1, ..., an)] of a [Function] held by a builder: the callee
    and its positional arguments. *)
Module Call.
Import Js Http.

Inductive SearchMethod := MGet | MPatch | MDelete.

#[global] Instance SearchMethod_eq_dec : EqDecision SearchMethod.
Proof. solve_decision. Defined.

Inductive arg :=
| ANull
| AScalar (x : scalar)
| AParams (p : HttpParams)
| AHeaders (h : HttpHeaders)
| AMethod (m : SearchMethod)
| AResource (l : loc).

(** [getHttpHeaders()] yields an [HttpHeaders] or [null]. *)
Definition of_headers (h : option HttpHeaders) : arg :=
  match h with
  | Some h => AHeaders h
  | None => ANull
  end.

Record t := { callee : dyn; args : list arg }.

End Call.

Module GetQuery.
Import Js Http.

Inductive direction := asc | desc.

Definition direction_toString (d : direction) : string :=
  match d with
  | asc => "asc"
  | desc => "desc"
  end.

Record OrderBy := { field : string; type : direction }.

(** [string | string[]], the value of a header. *)
Inductive hvalue :=
| HString (s : string)
| HStrings (xs : list string).

Definition hvalue_toString (v : hvalue) : string :=
  match v with
  | HString s => s
  | HStrings xs => join "," xs
  end.

Record t := {
  id : option scalar;
  getHandler : dyn;
  onlyFields : list string;
  limitResult : option Z;
  pageNumber : option Z;
  orderByFields : list OrderBy;
  headers : list (string * hvalue)
}.

Definition new (getHandler : dyn) (id : option scalar) : t :=
  {| id := id;
     getHandler := getHandler;
     onlyFields := [];
     limitResult := None;
     pageNumber := None;
     orderByFields := [];
     headers := [] |}.

Definition only (fields : list string) (this : t) : t :=
  {| id := id this;
     getHandler := getHandler this;
     onlyFields := onlyFields this ++ fields;
     limitResult := limitResult this;
     pageNumber := pageNumber this;
     orderByFields := orderByFields this;
     headers := headers this |}.

Definition limit (limitResult : Z) (this : t) : t :=
  {| id := id this;
     getHandler := getHandler this;
     onlyFields := onlyFields this;
     limitResult := Some limitResult;
     pageNumber := pageNumber this;
     orderByFields := orderByFields this;
     headers := headers this |}.

Definition page (pageNumber : Z) (this : t) : t :=
  {| id := id this;
     getHandler := getHandler this;
     onlyFields := onlyFields this;
     limitResult := limitResult this;
     pageNumber := Some pageNumber;
     orderByFields := orderByFields this;
     headers := headers this |}.

(** [orderByFields.push({ field, type })] *)
Definition orderBy (field : string) (type : direction) (this : t) : t :=
  {| id := id this;
     getHandler := getHandler this;
     onlyFields := onlyFields this;
     limitResult := limitResult this;
     pageNumber := pageNumber this;
     orderByFields := orderByFields this ++ [{| field := field; type := type |}];
     headers := headers this |}.

(** *** The plain object [headers]: own properties in insertion order *)

Fixpoint assoc_set {A} (key : string) (value : A) (o : list (string * A))
  : list (string * A) :=
  match o with
  | [] => [(key, value)]
  | (k, w) :: o' =>
      if decide (k = key) then (k, value) :: o' else (k, w) :: assoc_set key value o'
  end.

(** [o[key] = value]: an existing property keeps its place, a new one is
    added last. Assigning to [__proto__] reaches the accessor of
    [Object.prototype] and creates no own property. *)
Definition Object_set {A} (key : string) (value : A) (o : list (string * A))
  : list (string * A) :=
  if decide (key = "__proto__") then o else assoc_set key value o.

(** [o[key]] for an own property. *)
Fixpoint Object_get {A} (key : string) (o : list (string * A)) : option A :=
  match o with
  | [] => None
  | (k, w) :: o' => if decide (k = key) then Some w else Object_get key o'
  end.

(** An array index: the canonical decimal of an integer below 2^32 - 1. *)
Fixpoint digits (s : string) (acc : N) : option N :=
  match s with
  | EmptyString => Some acc
  | String c s' =>
      let n := N_of_ascii c in
      if ((48 <=? n) && (n <=? 57))%N then digits s' (10 * acc + (n - 48))%N else None
  end.

Definition array_index (key : string) : option N :=
  match key with
  | EmptyString => None
  | _ =>
      n ← digits key 0%N;
      if bool_decide (pretty n = key ∧ (n < 4294967295)%N) then Some n else None
  end.

(** [headers[key] = value] *)
Definition header (key : string) (value : hvalue) (this : t) : t :=
  {| id := id this;
     getHandler := getHandler this;
     onlyFields := onlyFields this;
     limitResult := limitResult this;
     pageNumber := pageNumber this;
     orderByFields := orderByFields this;
     headers := Object_set key value (headers this) |}.

Definition fresh (this : t) : t :=
  {| id := id this;
     getHandler := getHandler this;
     onlyFields := onlyFields this;
     limitResult := limitResult this;
     pageNumber := pageNumber this;
     orderByFields := orderByFields this;
     headers := Object_set "no-cache" (HString "1") (headers this) |}.

(** The array [[field, type]] pushed for one entry. *)
Definition orderByEntry (o : OrderBy) : json :=
  JArray [JString (field o); JString (direction_toString (type o))].

Definition getHttpParams (this : t) : HttpParams :=
  let params := new_HttpParams in
  let params :=
    if bool_decide (onlyFields this = []) then params
    else set (DString "only") (join "," (onlyFields this)) params in
  let params :=
    match limitResult this with
    | Some n => if Z.eqb n 0 then params else set (DString "limit") (number_toString n) params
    | None => params
    end in
  let params :=
    match pageNumber this with
    | Some n => if Z.eqb n 0 then params else set (DString "page") (number_toString n) params
    | None => params
    end in
  if bool_decide (orderByFields this = []) then params
  else
    let orderByArray := foldl (λ acc o, acc ++ [orderByEntry o]) [] (orderByFields this) in
    set (DString "order") (JSON_stringify (JArray orderByArray)) params.

(** [Object.keys]: the own keys, array indices first in ascending order,
    then the other keys in insertion order. *)
Definition Object_keys {A} (o : list (string * A)) : list string :=
  let keys := o.*1 in
  (pretty <$> merge_sort N.le (omap array_index keys))
  ++ filter (λ key, array_index key = None) keys.

Definition getHttpHeaders (this : t) : option HttpHeaders :=
  let headers := headers this in
  let keys := Object_keys headers in
  if bool_decide (keys = []) then None
  else
    Some (foldl
            (λ httpHeaders key,
               set_header key
                 (from_option hvalue_toString "undefined" (Object_get key headers))
                 httpHeaders)
            new_HttpHeaders keys).

Definition get (this : t) : Call.t :=
  let params := getHttpParams this in
  let headers := getHttpHeaders this in
  match id this with
  | Some i =>
      if scalar_truthy i
      then {| Call.callee := getHandler this;
              Call.args := [Call.AScalar i; Call.AParams params; Call.of_headers headers] |}
      else {| Call.callee := getHandler this;
              Call.args := [Call.AParams params; Call.of_headers headers] |}
  | None =>
      {| Call.callee := getHandler this;
         Call.args := [Call.AParams params; Call.of_headers headers] |}
  end.

End GetQuery.

Module SearchQuery.
Import Js Http.

Record SearchParam := { field : dyn; value : string }.

(** [SearchQuery extends GetQuery]: the inherited state is [base]. *)
Record t := {
  base : GetQuery.t;
  searchParams : list SearchParam;
  searchHandler : dyn
}.

(** The constructor's parameters, in declaration order. *)
Definition new (field value searchHandler : dyn) : t :=
  {| base := GetQuery.new searchHandler None;
     searchParams := [] ++ [{| field := field; value := dyn_toString value |}];
     searchHandler := searchHandler |}.

(** An inherited modifier acts on the inherited state. *)
Definition inherited (f : GetQuery.t → GetQuery.t) (this : t) : t :=
  {| base := f (base this);
     searchParams := searchParams this;
     searchHandler := searchHandler this |}.

Definition andWhere (field value : dyn) (this : t) : t :=
  {| base := base this;
     searchParams := searchParams this ++ [{| field := field; value := dyn_toString value |}];
     searchHandler := searchHandler this |}.

Definition get (this : t) : Call.t :=
  let params := GetQuery.getHttpParams (base this) in
  let params := foldl (λ params searchParam, set (field searchParam) (value searchParam) params)
                      params (searchParams this) in
  {| Call.callee := searchHandler this;
     Call.args := [Call.AParams params; Call.AMethod Call.MGet; Call.ANull;
                   Call.of_headers (GetQuery.getHttpHeaders (base this))] |}.

Definition remove (this : t) : Call.t :=
  let params := GetQuery.getHttpParams (base this) in
  let params := foldl (λ params searchParam, set (field searchParam) (value searchParam) params)
                      params (searchParams this) in
  {| Call.callee := searchHandler this;
     Call.args := [Call.AParams params; Call.AMethod Call.MDelete; Call.ANull;
                   Call.of_headers (GetQuery.getHttpHeaders (base this))] |}.

Definition patch (resource : loc) (this : t) : Call.t :=
  let params := GetQuery.getHttpParams (base this) in
  let params := foldl (λ params searchParam, set (field searchParam) (value searchParam) params)
                      params (searchParams this) in
  {| Call.callee := searchHandler this;
     Call.args := [Call.AParams params; Call.AMethod Call.MPatch; Call.AResource resource;
                   Call.of_headers (GetQuery.getHttpHeaders (base this))] |}.

End SearchQuery.

(** ** resource.service.ts *)

Module ResourceService.
Import Js Http.

(** The model class: its static [basePath], the own data fields a new
    instance starts with, and the function a new instance answers for
    [onInstantiated] when the class declares one, as a method of its
    prototype or as a field that the constructor initialises with a
    function: a copied field of that name takes its place either way.
    The function reads and updates the fields of [this]. *)
Record ModelClass := {
  basePath : string;
  fields : obj;
  onInstantiated : option (obj → obj)
}.

Record t := {
  apiUrl : string;
  modelClass : ModelClass
}.

(** [getBaseUrl().concat(modelClass.basePath)] *)
Definition new (baseUrl : string) (modelClass : ModelClass) : t :=
  {| apiUrl := baseUrl +:+ basePath modelClass; modelClass := modelClass |}.

(** *** The transport's answers *)

Record HttpErrorResponse := { status : Z; statusText : string }.

Inductive response (A : Type) :=
| Success (body : A)
| Failure (err : HttpErrorResponse).
Arguments Success {A} body.
Arguments Failure {A} err.

Record ListResponse (A : Type) := {
  data : option (list A);
  meta : option obj
}.
Arguments data {A} _.
Arguments meta {A} _.

(** The state of a returned promise once the transport has answered. *)
Inductive promise (A : Type) :=
| Resolved (v : A)
| Rejected (err : HttpErrorResponse).
Arguments Resolved {A} v.
Arguments Rejected {A} err.

(** *** Effects: the heap of caller-visible objects and a trace *)

Inductive event :=
| Sent (r : Request)
| Hook (l : loc) (this : obj).

Record state := {
  heap : gmap loc obj;
  trace : list event
}.

Inductive exn := TypeError (msg : string).

Inductive result (A : Type) :=
| Ok (a : A)
| Throw (e : exn).
Arguments Ok {A} a.
Arguments Throw {A} e.

Definition M (A : Type) : Type := state → result A * state.

#[global] Instance M_ret : MRet M := λ A a st, (Ok a, st).

#[global] Instance M_bind : MBind M := λ A B f m st,
  match m st with
  | (Ok a, st') => f a st'
  | (Throw e, st') => (Throw e, st')
  end.

Definition throw {A} (e : exn) : M A := λ st, (Throw e, st).

Definition emit (e : event) : M unit := λ st,
  (Ok (), {| heap := heap st; trace := trace st ++ [e] |}).

(** [this.http.<verb>(url, body?, { params, headers })], subscribed. *)
Definition send (r : Request) : M unit := emit (Sent r).

(** [new this.modelClass()] *)
Definition construct (c : ModelClass) : M loc := λ st,
  let l := fresh (dom (heap st)) in
  (Ok l, {| heap := <[l := fields c]> (heap st); trace := trace st |}).

(** [Object.assign(target, source)]: every own field of [source]
    overwrites the field of that name in [target]; [null] contributes
    nothing. *)
Definition Object_assign (target : loc) (source : option obj) : M unit := λ st,
  match source with
  | Some src =>
      (Ok (), {| heap := alter (λ o, src ∪ o) target (heap st); trace := trace st |})
  | None => (Ok (), st)
  end.

(** What [item.onInstantiated] evaluates to: an own field of the item
    shadows the method of the prototype. *)
Inductive property :=
| PUndefined
| PData (v : val)
| PMethod (f : obj → obj).

Definition get_onInstantiated (c : ModelClass) (item : loc) : M property := λ st,
  match heap st !! item ≫= (λ o : obj, o !! "onInstantiated") with
  | Some v => (Ok (PData v), st)
  | None =>
      match onInstantiated c with
      | Some f => (Ok (PMethod f), st)
      | None => (Ok PUndefined, st)
      end
  end.

Definition property_truthy (p : property) : bool :=
  match p with
  | PUndefined => false
  | PData v => truthy v
  | PMethod _ => true
  end.

(** [item.onInstantiated()] *)
Definition call_onInstantiated (p : property) (item : loc) : M unit :=
  match p with
  | PMethod f => λ st,
      (Ok (), {| heap := alter f item (heap st);
                 trace := trace st ++ [Hook item (default ∅ (heap st !! item))] |})
  | _ => throw (TypeError "item.onInstantiated is not a function")
  end.

(** [resource.id], converted for the URL. *)
Definition resource_id (resource : loc) : M string := λ st,
  (Ok (val_toString (default VUndefined (heap st !! resource ≫= (λ o : obj, o !! "id")))), st).

Fixpoint for_of {A B} (xs : list A) (body : A → M B) : M (list B) :=
  match xs with
  | [] => mret []
  | x :: xs' => y ← body x; ys ← for_of xs' body; mret (y :: ys)
  end.

(** *** The service's methods *)

(** [generateListResponse(result)] replaces [data] on the envelope it is
    given ([result.data = items]) and returns that same object. Answers
    of the transport are values here: what is returned is the envelope as
    it is after the assignment, and that it is the object handed over,
    changed in place, is not represented. *)
Definition generateListResponse (this : t) (result : option (ListResponse obj))
  : M (ListResponse loc) :=
  match result with
  | None => throw (TypeError "Cannot read property data of null")
  | Some result =>
      match data result with
      | Some rows =>
          items ← for_of rows (λ row,
            item ← construct (modelClass this);
            Object_assign item (Some row);;
            hook ← get_onInstantiated (modelClass this) item;
            (if property_truthy hook then call_onInstantiated hook item else mret ());;
            mret item);
          mret {| data := Some items; meta := meta result |}
      | None => mret {| data := None; meta := meta result |}
      end
  end.

Definition list (this : t) (params : option HttpParams) (headers : option HttpHeaders)
    (reply : response (option (ListResponse obj))) : M (promise (ListResponse loc)) :=
  send {| rq_verb := GET; rq_url := apiUrl this; rq_body := None;
          rq_params := params; rq_headers := headers |};;
  match reply with
  | Success result => r ← generateListResponse this result; mret (Resolved r)
  | Failure err => mret (Rejected err)
  end.

Definition get (this : t) (id : scalar) (params : option HttpParams)
    (headers : option HttpHeaders) (reply : response (option obj)) : M (promise loc) :=
  send {| rq_verb := GET; rq_url := apiUrl this +:+ "/" +:+ scalar_toString id;
          rq_body := None; rq_params := params; rq_headers := headers |};;
  match reply with
  | Success data =>
      item ← construct (modelClass this);
      Object_assign item data;;
      hook ← get_onInstantiated (modelClass this) item;
      (if property_truthy hook then call_onInstantiated hook item else mret ());;
      mret (Resolved item)
  | Failure err => mret (Rejected err)
  end.

Definition create (this : t) (resource : loc) (params : option HttpParams)
    (headers : option HttpHeaders) (reply : response (option obj)) : M (promise loc) :=
  send {| rq_verb := POST; rq_url := apiUrl this; rq_body := Some (BodyResource resource);
          rq_params := params; rq_headers := headers |};;
  match reply with
  | Success data => Object_assign resource data;; mret (Resolved resource)
  | Failure err => mret (Rejected err)
  end.

Definition update (this : t) (resource : loc) (params : option HttpParams)
    (headers : option HttpHeaders) (reply : response (option obj)) : M (promise loc) :=
  id ← resource_id resource;
  send {| rq_verb := PUT; rq_url := apiUrl this +:+ "/" +:+ id;
          rq_body := Some (BodyResource resource);
          rq_params := params; rq_headers := headers |};;
  match reply with
  | Success data =>
      (if bool_decide (is_Some data) then Object_assign resource data else mret ());;
      mret (Resolved resource)
  | Failure err => mret (Rejected err)
  end.

Definition patch (this : t) (resource : loc) (params : option HttpParams)
    (headers : option HttpHeaders) (reply : response (option obj)) : M (promise loc) :=
  id ← resource_id resource;
  send {| rq_verb := PATCH; rq_url := apiUrl this +:+ "/" +:+ id;
          rq_body := Some (BodyResource resource);
          rq_params := params; rq_headers := headers |};;
  match reply with
  | Success data =>
      (if bool_decide (is_Some data) then Object_assign resource data else mret ());;
      mret (Resolved resource)
  | Failure err => mret (Rejected err)
  end.

Definition remove (this : t) (resource : loc) (params : option HttpParams)
    (headers : option HttpHeaders) (reply : response (option obj)) : M (promise loc) :=
  id ← resource_id resource;
  send {| rq_verb := DELETE; rq_url := apiUrl this +:+ "/" +:+ id; rq_body := None;
          rq_params := params; rq_headers := headers |};;
  match reply with
  | Success _ => mret (Resolved resource)
  | Failure err => mret (Rejected err)
  end.

(** [this.http[method]] *)
Definition verb_of (method : Call.SearchMethod) : verb :=
  match method with
  | Call.MGet => GET
  | Call.MPatch => PATCH
  | Call.MDelete => DELETE
  end.

(** [res()] resolves with [undefined]: [None]. *)
Definition search (this : t) (searchParams : option HttpParams) (method : Call.SearchMethod)
    (resource : option loc) (headers : option HttpHeaders)
    (reply : response (option (ListResponse obj)))
  : M (promise (option (ListResponse loc))) :=
  (if bool_decide (method = Call.MPatch)
   then send {| rq_verb := verb_of method; rq_url := apiUrl this +:+ "/search";
                rq_body := Some (from_option BodyResource BodyNull resource);
                rq_params := searchParams; rq_headers := headers |}
   else send {| rq_verb := verb_of method; rq_url := apiUrl this +:+ "/search";
                rq_body := None;
                rq_params := searchParams; rq_headers := headers |});;
  if bool_decide (method = Call.MGet)
  then
    match reply with
    | Success result => r ← generateListResponse this result; mret (Resolved (Some r))
    | Failure err => mret (Rejected err)
    end
  else
    match reply with
    | Success _ => mret (Resolved None)
    | Failure err => mret (Rejected err)
    end.

Definition upload {K} (this : t) (formData : FormData) (params : option HttpParams)
    (headers : option HttpHeaders) (reply : response K) : M (promise K) :=
  send {| rq_verb := POST; rq_url := apiUrl this +:+ "/upload";
          rq_body := Some (BodyForm formData);
          rq_params := params; rq_headers := headers |};;
  match reply with
  | Success data => mret (Resolved data)
  | Failure err => mret (Rejected err)
  end.

Definition uploadFor {K} (this : t) (resource : loc) (formData : FormData)
    (params : option HttpParams) (headers : option HttpHeaders) (reply : response K)
  : M (promise K) :=
  id ← resource_id resource;
  send {| rq_verb := POST; rq_url := apiUrl this +:+ "/" +:+ id +:+ "/upload";
          rq_body := Some (BodyForm formData);
          rq_params := params; rq_headers := headers |};;
  match reply with
  | Success data => mret (Resolved data)
  | Failure err => mret (Rejected err)
  end.

(** *** The builder factories *)

Definition findAll (this : t) : GetQuery.t :=
  GetQuery.new (DFunction HList) None.

Definition findById (this : t) (id : scalar) : GetQuery.t :=
  GetQuery.new (DFunction HGet) (Some id).

(** [new SearchQuery<T>(this.search.bind(this), field, value)] *)
Definition findWhere (this : t) (field : string) (value : dyn) : SearchQuery.t :=
  SearchQuery.new (DFunction HSearch) (DString field) value.

(** *** Calling a bound method

    A builder calls the [Function] it holds with positional arguments.
    Calling a value that is not a function throws a [TypeError]. The
    argument lists covered are the ones that match the declared
    signatures of [list], [get] and [search]; any other shape is [None]. *)

Record Transport := {
  record_reply : response (option obj);
  list_reply : response (option (ListResponse obj))
}.

Inductive settled :=
| OfGet (p : promise loc)
| OfList (p : promise (ListResponse loc))
| OfSearch (p : promise (option (ListResponse loc))).

Definition as_params (a : Call.arg) : option (option HttpParams) :=
  match a with
  | Call.ANull => Some None
  | Call.AParams p => Some (Some p)
  | _ => None
  end.

Definition as_headers (a : Call.arg) : option (option HttpHeaders) :=
  match a with
  | Call.ANull => Some None
  | Call.AHeaders h => Some (Some h)
  | _ => None
  end.

Definition as_resource (a : Call.arg) : option (option loc) :=
  match a with
  | Call.ANull => Some None
  | Call.AResource l => Some (Some l)
  | _ => None
  end.

Definition apply (this : t) (h : handler) (args : Datatypes.list Call.arg) (tr : Transport)
  : option (M settled) :=
  match h, args with
  | HList, [a1; a2] =>
      match as_params a1, as_headers a2 with
      | Some params, Some headers =>
          Some (p ← list this params headers (list_reply tr); mret (OfList p))
      | _, _ => None
      end
  | HGet, [Call.AScalar id; a2; a3] =>
      match as_params a2, as_headers a3 with
      | Some params, Some headers =>
          Some (p ← get this id params headers (record_reply tr); mret (OfGet p))
      | _, _ => None
      end
  | HSearch, [a1; Call.AMethod method; a3; a4] =>
      match as_params a1, as_resource a3, as_headers a4 with
      | Some params, Some resource, Some headers =>
          Some (p ← search this params method resource headers (list_reply tr);
                mret (OfSearch p))
      | _, _, _ => None
      end
  | _, _ => None
  end.

Definition invoke (this : t) (c : Call.t) (tr : Transport) : option (M settled) :=
  match Call.callee c with
  | DFunction h => apply this h (Call.args c) tr
  | _ => Some (throw (TypeError "is not a function"))
  end.

(** *** Utilities and raw pass-through *)



(** The [options] of the raw methods; [responseType] is always
    ['arraybuffer'] and [observe], when given, ['body']. *)
Record RawOptions := {
  raw_headers : option HttpHeaders;
  raw_observe : bool;
  raw_params : option HttpParams;
  raw_reportProgress : option bool;
  raw_withCredentials : option bool
}.

(** A call [this.http.<verb>(url, data?, options)]. *)
Record RawCall := {
  raw_verb : verb;
  raw_url : string;
  raw_data : option payload;
  raw_options : option RawOptions
}.

(** [Observable.toPromise()] on the transport's answer. *)
Definition toPromise {A} (reply : response A) : promise A :=
  match reply with
  | Success body => Resolved body
  | Failure err => Rejected err
  end.

(** Each raw method: the call it makes and the promise it returns. *)
Definition rawGet {A} (this : t) (path : string) (options : option RawOptions)
    (reply : response A) : RawCall * promise A :=
  let url := if bool_decide (path = EmptyString) then EmptyString else "/" +:+ path in
  ({| raw_verb := GET; raw_url := apiUrl this +:+ url; raw_data := None;
      raw_options := options |}, toPromise reply).

Definition rawPost {A} (this : t) (path : string) (data : payload)
    (options : option RawOptions) (reply : response A) : RawCall * promise A :=
  let url := if bool_decide (path = EmptyString) then EmptyString else "/" +:+ path in
  ({| raw_verb := POST; raw_url := apiUrl this +:+ url; raw_data := Some data;
      raw_options := options |}, toPromise reply).

Definition rawPut {A} (this : t) (path : string) (data : payload)
    (options : option RawOptions) (reply : response A) : RawCall * promise A :=
  let url := if bool_decide (path = EmptyString) then EmptyString else "/" +:+ path in
  ({| raw_verb := PUT; raw_url := apiUrl this +:+ url; raw_data := Some data;
      raw_options := options |}, toPromise reply).

Definition rawPatch {A} (this : t) (path : string) (data : payload)
    (options : option RawOptions) (reply : response A) : RawCall * promise A :=
  let url := if bool_decide (path = EmptyString) then EmptyString else "/" +:+ path in
  ({| raw_verb := PATCH; raw_url := apiUrl this +:+ url; raw_data := Some data;
      raw_options := options |}, toPromise reply).

Definition rawDelete {A} (this : t) (path : string) (options : option RawOptions)
    (reply : response A) : RawCall * promise A :=
  let url := if bool_decide (path = EmptyString) then EmptyString else "/" +:+ path in
  ({| raw_verb := DELETE; raw_url := apiUrl this +:+ url; raw_data := None;
      raw_options := options |}, toPromise reply).

End ResourceService.

(** ** resource-config.service.ts *)

Module ResourceConfigService.

Record t := { url : string }.

Definition new : t := {| url := EmptyString |}.

Definition setBaseUrl (url : string) (this : t) : t := {| url := url |}.

Definition getBaseUrl (this : t) : string := url this.

(** The constructor of [ResourceService], given the injected
    configuration and the model class. *)
Definition inject (config : t) (modelClass : ResourceService.ModelClass)
  : ResourceService.t :=
  ResourceService.new (getBaseUrl config) modelClass.

End ResourceConfigService.

(** ** Vocabulary of the statements *)

Module Spec.
Import Js Http.

(** The [HttpParams] among the arguments of a call. *)
Definition params_of (c : Call.t) : option HttpParams :=
  match Call.args c with
  | Call.AParams p :: _ => Some p
  | _ => None
  end.

(** The filter pairs of a search query, as parameters. *)
Definition filter_pairs (sq : SearchQuery.t) : HttpParams :=
  map (λ sp, (SearchQuery.field sp, SearchQuery.value sp)) (SearchQuery.searchParams sq).

(** A sequence of [andWhere] calls. *)
Definition andWhere_all (calls : list (dyn * dyn)) (sq : SearchQuery.t) : SearchQuery.t :=
  foldl (λ sq c, SearchQuery.andWhere c.1 c.2 sq) sq calls.

(** A sequence of [orderBy] calls. *)
Definition orderBy_all (calls : list (string * GetQuery.direction)) (q : GetQuery.t)
  : GetQuery.t :=
  foldl (λ q c, GetQuery.orderBy c.1 c.2 q) q calls.

(** The fields of an instance once a raw record has been copied onto it. *)
Definition assigned (c : ResourceService.ModelClass) (raw : obj) : obj :=
  raw ∪ ResourceService.fields c.

(** The instance the caller receives: [onInstantiated] has run on the
    assigned fields when the class declares it. *)
Definition materialized (c : ResourceService.ModelClass) (raw : obj) : obj :=
  match ResourceService.onInstantiated c with
  | Some f => f (assigned c raw)
  | None => assigned c raw
  end.

(** The own field [onInstantiated] of an instance once [raw] has been
    copied onto it, if there is one: [item.onInstantiated] then evaluates
    to it and not to what the class declares. *)
Definition shadow (c : ResourceService.ModelClass) (raw : obj) : option val :=
  assigned c raw !! "onInstantiated".

(** The raw records the success callback gets past: a record without a
    key [__proto__] (copying that key would replace the prototype of the
    instance instead of adding a field), which leaves no truthy own field
    [onInstantiated] on the instance (calling such a field throws). *)
Definition passes (c : ResourceService.ModelClass) (raw : obj) : bool :=
  bool_decide (raw !! "__proto__" = None) && negb (from_option truthy false (shadow c raw)).

(** Whether the hook of the class is invoked on the instance built from
    [raw]: the class declares it and no own field stands in its place. *)
Definition hooked (c : ResourceService.ModelClass) (raw : obj) : bool :=
  match shadow c raw, ResourceService.onInstantiated c with
  | None, Some _ => true
  | _, _ => false
  end.

(** The instance the caller receives for [raw]. *)
Definition built (c : ResourceService.ModelClass) (raw : obj) : obj :=
  match shadow c raw with
  | None => materialized c raw
  | Some _ => assigned c raw
  end.

(** The hook invocation for the instance [l] built from [row], if any:
    the hook sees the assigned fields. *)
Definition hook_event (c : ResourceService.ModelClass) (l : loc) (row : obj)
  : list ResourceService.event :=
  if hooked c row then [ResourceService.Hook l (assigned c row)] else [].

(** The hook invocations for the instances [items] built from [rows], in
    order. *)
Definition hook_events (c : ResourceService.ModelClass) (items : list loc) (rows : list obj)
  : list ResourceService.event :=
  concat (zip_with (hook_event c) items rows).

(** The statements run for one raw record: the body of the loop of
    [generateListResponse], which [get] repeats for its single record. *)
Definition instantiate (c : ResourceService.ModelClass) (row : option obj)
  : ResourceService.M loc :=
  item ← ResourceService.construct c;
  ResourceService.Object_assign item row;;
  hook ← ResourceService.get_onInstantiated c item;
  (if ResourceService.property_truthy hook
   then ResourceService.call_onInstantiated hook item else mret ());;
  mret item.

(** [items] are the instances built from [rows], between the states
    [before] and [after]: one new object per row, in order, each holding
    the fields built for its row; nothing else in the heap changed; the
    trace gained [sent] and then the hook invocations, in order. *)
Definition instantiated (c : ResourceService.ModelClass) (rows : list obj) (items : list loc)
    (before after : ResourceService.state) (sent : list ResourceService.event) : Prop :=
  length items = length rows ∧
  NoDup items ∧
  (∀ l, l ∈ items → ResourceService.heap before !! l = None) ∧
  (∀ i row l, rows !! i = Some row → items !! i = Some l →
     ResourceService.heap after !! l = Some (built c row)) ∧
  (∀ l, l ∉ items → ResourceService.heap after !! l = ResourceService.heap before !! l) ∧
  ResourceService.trace after = ResourceService.trace before ++ sent ++ hook_events c items rows.

(** How often [onInstantiated] was invoked on [l] in a trace. *)
Definition hook_calls (l : loc) (tr : list ResourceService.event) : nat :=
  length (List.filter (λ e, match e with
                       | ResourceService.Hook l' _ => bool_decide (l' = l)
                       | _ => false
                       end) tr).

(** The requests of a trace. *)
Definition requests (tr : list ResourceService.event) : list Request :=
  omap (λ e, match e with ResourceService.Sent r => Some r | _ => None end) tr.

(** The property key under which [generateIndex] files [item]. *)
Definition id_key (st : ResourceService.state) (item : loc) : string :=
  val_toString (default VUndefined
    (ResourceService.heap st !! item ≫= (λ o : obj, o !! "id"))).

(** The parameter a stored number gives rise to: none when it is unset
    or falsy. *)
Definition number_param (name : string) (n : option Z) : HttpParams :=
  match n with
  | Some n => if Z.eqb n 0 then [] else [(DString name, number_toString n)]
  | None => []
  end.

(** [m], run from [st], sends the one request [r] and no other. *)
Definition sends_only {A} (m : ResourceService.M A) (st : ResourceService.state)
    (r : Request) : Prop :=
  requests (ResourceService.trace (m st).2) = requests (ResourceService.trace st) ++ [r].

(** [m], run from [st], leaves every object of the heap as it was,
    except possibly [but]. *)
Definition preserves {A} (m : ResourceService.M A) (st : ResourceService.state)
    (but : option loc) : Prop :=
  ∀ l o, but ≠ Some l → ResourceService.heap st !! l = Some o →
         ResourceService.heap (m st).2 !! l = Some o.

End Spec.

(** ** The model of the test suite *)

Module Sample.
Import Js Http.

(** [class User extends Resource], with [basePath = '/user'] and an
    [onInstantiated] that stamps [instantiated_at]. *)
Definition User : ResourceService.ModelClass :=
  {| ResourceService.basePath := "/user";
     ResourceService.fields := ∅;
     ResourceService.onInstantiated := Some (λ this, <["instantiated_at" := VNum 1]> this) |}.

Definition userService : ResourceService.t := ResourceService.new EmptyString User.

Definition empty_state : ResourceService.state :=
  {| ResourceService.heap := ∅; ResourceService.trace := [] |}.

End Sample.

(** * Properties *)

(** ** [HttpParams] *)

Section HttpParams.
Import Js Http.

Lemma get_set (k k' : dyn) (v : string) (ps : HttpParams) :
  get k (set k' v ps) = if decide (k' = k) then Some v else get k ps.
Proof.
  induction ps as [|[k0 w] ps IH]; simpl.
  - repeat case_decide; congruence.
  - destruct (decide (k0 = k')) as [->|Hne]; simpl.
    + repeat case_decide; congruence.
    + rewrite IH. repeat case_decide; congruence.
Qed.

Lemma get_None (k : dyn) (ps : HttpParams) : get k ps = None ↔ k ∉ keys ps.
Proof.
  unfold keys. induction ps as [|[k0 w] ps IH]; simpl.
  - split; [intros _; apply not_elem_of_nil | done].
  - rewrite not_elem_of_cons. case_decide; subst.
    + split; [done | intros [? _]; done].
    + rewrite IH. split; [intros Hk; split; [congruence | exact Hk] | intros [_ Hk]; exact Hk].
Qed.

(** A parameter that is not present yet is appended. *)
Lemma set_new (k : dyn) (v : string) (ps : HttpParams) :
  k ∉ keys ps → set k v ps = ps ++ [(k, v)].
Proof.
  unfold keys. induction ps as [|[k0 w] ps IH]; simpl; [done|].
  rewrite not_elem_of_cons. intros [Hne Hk].
  case_decide; [congruence|]. by rewrite IH.
Qed.

(** Setting pairwise distinct new parameters appends them in order. *)
Lemma foldl_set_new (kvs ps : HttpParams) :
  NoDup (keys ps ++ keys kvs) →
  foldl (λ ps kv, set kv.1 kv.2 ps) ps kvs = ps ++ kvs.
Proof.
  unfold keys. revert ps. induction kvs as [|[k v] kvs IH]; intros ps Hnd; simpl.
  - by rewrite app_nil_r.
  - assert (k ∉ ps.*1) as Hk.
    { apply NoDup_app in Hnd as (_ & Hdisj & _). intros Hin.
      apply (Hdisj k Hin). simpl. left. }
    rewrite (set_new k v ps Hk), IH.
    + by rewrite <- app_assoc.
    + rewrite fmap_app. simpl. rewrite <- app_assoc. simpl.
      by rewrite fmap_cons in Hnd.
Qed.

End HttpParams.

(** ** [GetQuery]: parameter serialization *)

Section GetQueryParams.
Import Js Http.

Lemma foldl_push {A B} (f : A → B) (xs : list A) (acc : list B) :
  foldl (λ acc x, acc ++ [f x]) acc xs = acc ++ map f xs.
Proof.
  revert acc. induction xs as [|x xs IH]; intros acc; simpl.
  - by rewrite app_nil_r.
  - by rewrite IH, <- app_assoc.
Qed.

Lemma get_limit (q : GetQuery.t) :
  get (DString "limit") (GetQuery.getHttpParams q) =
  if number_truthy (GetQuery.limitResult q)
  then number_toString <$> GetQuery.limitResult q else None.
Proof.
  unfold GetQuery.getHttpParams, new_HttpParams, number_truthy.
  destruct (GetQuery.limitResult q) as [n|], (GetQuery.pageNumber q) as [m|];
    try destruct (Z.eqb n 0); try destruct (Z.eqb m 0);
    repeat case_bool_decide; rewrite ?get_set; simpl; reflexivity.
Qed.

Lemma get_page (q : GetQuery.t) :
  get (DString "page") (GetQuery.getHttpParams q) =
  if number_truthy (GetQuery.pageNumber q)
  then number_toString <$> GetQuery.pageNumber q else None.
Proof.
  unfold GetQuery.getHttpParams, new_HttpParams, number_truthy.
  destruct (GetQuery.limitResult q) as [n|], (GetQuery.pageNumber q) as [m|];
    try destruct (Z.eqb n 0); try destruct (Z.eqb m 0);
    repeat case_bool_decide; rewrite ?get_set; simpl; reflexivity.
Qed.

Lemma get_order (q : GetQuery.t) :
  get (DString "order") (GetQuery.getHttpParams q) =
  if bool_decide (GetQuery.orderByFields q = []) then None
  else Some (JSON_stringify (JArray (map GetQuery.orderByEntry (GetQuery.orderByFields q)))).
Proof.
  unfold GetQuery.getHttpParams, new_HttpParams.
  rewrite foldl_push. simpl app.
  destruct (GetQuery.limitResult q) as [n|], (GetQuery.pageNumber q) as [m|];
    try destruct (Z.eqb n 0); try destruct (Z.eqb m 0);
    repeat case_bool_decide; rewrite ?get_set; simpl; reflexivity.
Qed.

(** C10. [limit(0)] and [page(0)] store a falsy number, also when they
    overwrite a positive one, and the parameter is then left out of the
    serialized parameters altogether; a stored number is serialized
    exactly when it is truthy. *)
Theorem falsy_limit_and_page_are_omitted (q : GetQuery.t) (n : Z) :
  (DString "limit" ∉ keys (GetQuery.getHttpParams (GetQuery.limit 0 q))) ∧
  (DString "page" ∉ keys (GetQuery.getHttpParams (GetQuery.page 0 q))) ∧
  (DString "limit" ∉ keys (GetQuery.getHttpParams (GetQuery.limit 0 (GetQuery.limit n q)))) ∧
  (DString "page" ∉ keys (GetQuery.getHttpParams (GetQuery.page 0 (GetQuery.page n q)))) ∧
  get (DString "limit") (GetQuery.getHttpParams (GetQuery.limit n q)) =
    (if Z.eqb n 0 then None else Some (number_toString n)) ∧
  get (DString "page") (GetQuery.getHttpParams (GetQuery.page n q)) =
    (if Z.eqb n 0 then None else Some (number_toString n)).
Proof.
  rewrite <- !get_None, !get_limit, !get_page. simpl.
  by destruct (Z.eqb n 0).
Qed.

End GetQueryParams.

(** ** [GetQuery]: ordering *)

Section GetQueryOrder.
Import Js Http.

Lemma orderBy_all_fields (calls : list (string * GetQuery.direction)) (q : GetQuery.t) :
  GetQuery.orderByFields (Spec.orderBy_all calls q) =
  GetQuery.orderByFields q
    ++ map (λ c, {| GetQuery.field := c.1; GetQuery.type := c.2 |}) calls.
Proof.
  unfold Spec.orderBy_all. revert q.
  induction calls as [|c calls IH]; intros q; simpl.
  - by rewrite app_nil_r.
  - rewrite IH. simpl. by rewrite <- app_assoc.
Qed.

(** C7. Each [orderBy] call appends one entry; after any sequence of
    calls the [order] parameter is the JSON text of the entries in call
    order, duplicates included; on a builder without earlier entries,
    [orderBy('a','asc')] then [orderBy('b','desc')] serializes to
    [[["a","asc"],["b","desc"]]]. *)
Theorem orderBy_accumulates_in_call_order (q : GetQuery.t) :
  (∀ f d, GetQuery.orderByFields (GetQuery.orderBy f d q) =
          GetQuery.orderByFields q ++ [{| GetQuery.field := f; GetQuery.type := d |}]) ∧
  (∀ c calls,
     get (DString "order") (GetQuery.getHttpParams (Spec.orderBy_all (c :: calls) q)) =
     Some (JSON_stringify (JArray
       (map GetQuery.orderByEntry
          (GetQuery.orderByFields q
             ++ map (λ c, {| GetQuery.field := c.1; GetQuery.type := c.2 |}) (c :: calls)))))) ∧
  (GetQuery.orderByFields q = [] →
     get (DString "order")
       (GetQuery.getHttpParams (GetQuery.orderBy "b" GetQuery.desc (GetQuery.orderBy "a" GetQuery.asc q))) =
     Some (String.concat (String dquote EmptyString)
             ["[["; "a"; ","; "asc"; "],["; "b"; ","; "desc"; "]]"])).
Proof.
  split; [done|]. split.
  - intros c calls. rewrite get_order, orderBy_all_fields.
    case_bool_decide as Hnil; [|done].
    apply app_eq_nil in Hnil as [_ Hnil]. discriminate.
  - intros Hq. rewrite get_order. simpl. rewrite Hq. reflexivity.
Qed.

Lemma orderBy_accumulates_in_call_order_witness :
  let q := GetQuery.limit 5 (GetQuery.new (DFunction HList) None) in
  GetQuery.orderByFields q = [] ∧
  get (DString "order")
    (GetQuery.getHttpParams (GetQuery.orderBy "b" GetQuery.desc (GetQuery.orderBy "a" GetQuery.asc q))) =
  Some (String.concat (String dquote EmptyString)
          ["[["; "a"; ","; "asc"; "],["; "b"; ","; "desc"; "]]"]).
Proof.
  intros q. split; [reflexivity|].
  apply (orderBy_accumulates_in_call_order q). reflexivity.
Defined.

End GetQueryOrder.

(** ** [GetQuery]: header serialization *)

Section GetQueryHeaders.
Import Js Http.

Lemma index_keys (keys : list string) :
  pretty <$> omap GetQuery.array_index keys =
  filter (λ key, ¬ (GetQuery.array_index key = None)) keys.
Proof.
  induction keys as [|key keys IH]; [done|].
  rewrite filter_cons. cbn [omap list_omap].
  destruct (GetQuery.array_index key) as [n|] eqn:Hkey.
  - rewrite decide_True by done. rewrite fmap_cons, IH. f_equal.
    unfold GetQuery.array_index in Hkey. destruct key; [done|].
    destruct (GetQuery.digits _ _) as [m|]; [|done]. simpl in Hkey.
    case_bool_decide as Hm; [|done]. injection Hkey as <-. by destruct Hm.
  - rewrite decide_False by (intros Hne; by apply Hne). done.
Qed.

(** [Object.keys] lists every own key once. *)
Lemma Object_keys_perm {A} (o : list (string * A)) : GetQuery.Object_keys o ≡ₚ o.*1.
Proof.
  unfold GetQuery.Object_keys.
  rewrite merge_sort_Permutation, index_keys, Permutation_app_comm.
  apply filter_app_complement.
Qed.

Lemma Object_keys_nil {A} (o : list (string * A)) : GetQuery.Object_keys o = [] ↔ o = [].
Proof.
  split.
  - intros Hnil. pose proof (Object_keys_perm o) as Hp. rewrite Hnil in Hp.
    apply Permutation_nil_l in Hp. symmetry in Hp. by apply fmap_nil_inv in Hp.
  - by intros ->.
Qed.

Lemma headers_new (h : dyn) (i : option scalar) : GetQuery.headers (GetQuery.new h i) = [].
Proof. reflexivity. Qed.

(** [only], [limit], [page] and [orderBy] leave the headers alone. *)
Lemma headers_unchanged (q : GetQuery.t) fields n f d :
  GetQuery.headers (GetQuery.only fields q) = GetQuery.headers q ∧
  GetQuery.headers (GetQuery.limit n q) = GetQuery.headers q ∧
  GetQuery.headers (GetQuery.page n q) = GetQuery.headers q ∧
  GetQuery.headers (GetQuery.orderBy f d q) = GetQuery.headers q.
Proof. done. Qed.

Lemma assoc_set_names {A} (key : string) (value : A) (o : list (string * A)) (k : string) :
  k ∈ (GetQuery.assoc_set key value o).*1 ↔ k = key ∨ k ∈ o.*1.
Proof.
  induction o as [|[k' w] o IH].
  - change (k ∈ [key] ↔ k = key ∨ k ∈ []).
    rewrite list_elem_of_singleton, elem_of_nil. tauto.
  - cbn [GetQuery.assoc_set]. destruct (decide (k' = key)) as [->|Hne].
    + rewrite !fmap_cons, !elem_of_cons. simpl. intuition congruence.
    + rewrite !fmap_cons, !elem_of_cons, IH. simpl. intuition congruence.
Qed.

Lemma Object_get_assoc_set {A} (key : string) (value : A) (o : list (string * A)) :
  GetQuery.Object_get key (GetQuery.assoc_set key value o) = Some value.
Proof.
  induction o as [|[k w] o IH]; simpl; [by rewrite decide_True|].
  destruct (decide (k = key)) as [->|Hne]; simpl.
  - by rewrite decide_True.
  - by rewrite decide_False.
Qed.

Lemma assoc_set_twice {A} (key : string) (v1 v2 : A) (o : list (string * A)) :
  GetQuery.assoc_set key v2 (GetQuery.assoc_set key v1 o) = GetQuery.assoc_set key v2 o.
Proof.
  induction o as [|[k w] o IH]; simpl; [by rewrite decide_True|].
  destruct (decide (k = key)) as [->|Hne]; simpl.
  - by rewrite decide_True.
  - rewrite decide_False by done. by rewrite IH.
Qed.

Lemma header_nonempty (q : GetQuery.t) (k : string) (v : GetQuery.hvalue) :
  k ≠ "__proto__" → GetQuery.headers (GetQuery.header k v q) ≠ [].
Proof.
  intros Hk. simpl. unfold GetQuery.Object_set. rewrite decide_False by done.
  by destruct (GetQuery.headers q) as [|[k' w] o]; simpl; [|case_decide].
Qed.

(** After a run of [set] calls, a header holds the value set last under
    a name equal to its own ignoring case. *)
Lemma get_header_foldl (f : string → string) (keys : list string) (hs : HttpHeaders)
    (name : string) :
  get_header name (foldl (λ hs key, set_header key (f key) hs) hs keys) =
  match last (filter (λ key, toLowerCase key = toLowerCase name) keys) with
  | Some key => Some (f key)
  | None => get_header name hs
  end.
Proof.
  assert (∀ key v hs, get_header name (set_header key v hs) =
                      if decide (toLowerCase key = toLowerCase name) then Some v
                      else get_header name hs) as Hset.
  { intros key v hs'. induction hs' as [|[n w] hs' IH]; simpl.
    - by repeat case_decide.
    - destruct (decide (toLowerCase n = toLowerCase key)) as [Heq|Hne]; simpl.
      + rewrite Heq. by repeat case_decide.
      + rewrite IH. repeat case_decide; congruence. }
  revert hs. induction keys as [|key keys IH]; intros hs; [done|].
  simpl. rewrite IH, filter_cons, Hset. case_decide.
  - rewrite last_cons. by destruct (last _).
  - by destruct (last _).
Qed.

(** Names that are pairwise different ignoring case are added in order. *)
Lemma foldl_set_header_new (f : string → string) (keys : list string) (hs : HttpHeaders) :
  NoDup (toLowerCase <$> (hs.*1 ++ keys)) →
  foldl (λ hs key, set_header key (f key) hs) hs keys = hs ++ ((λ key, (key, f key)) <$> keys).
Proof.
  assert (∀ key v hs, toLowerCase key ∉ toLowerCase <$> hs.*1 →
                      set_header key v hs = hs ++ [(key, v)]) as Hset.
  { intros key v hs'. induction hs' as [|[n w] hs' IH]; simpl; [done|].
    rewrite not_elem_of_cons. intros [Hne Hnin].
    rewrite decide_False by done. by rewrite IH. }
  revert hs. induction keys as [|key keys IH]; intros hs Hnd; simpl.
  - by rewrite app_nil_r.
  - rewrite fmap_app, fmap_cons in Hnd.
    rewrite Hset, IH.
    + by rewrite <- app_assoc.
    + rewrite fmap_app. simpl. rewrite !fmap_app, <- app_assoc. done.
    + apply NoDup_app in Hnd as (_ & Hdisj & _). intros Hin.
      apply (Hdisj _ Hin). left.
Qed.

Lemma map_Object_get {A B} (g : option A → B) (o : list (string * A)) :
  NoDup o.*1 →
  (λ key, (key, g (GetQuery.Object_get key o))) <$> o.*1 = (λ kv, (kv.1, g (Some kv.2))) <$> o.
Proof.
  induction o as [|[k w] o IH]; intros Hnd; [done|].
  rewrite fmap_cons in Hnd. apply NoDup_cons in Hnd as [Hk Hnd].
  rewrite !fmap_cons. cbn [fst snd GetQuery.Object_get].
  rewrite decide_True by done. f_equal.
  rewrite <- (IH Hnd). apply list_fmap_ext. intros i key Hkey.
  cbn [GetQuery.Object_get]. rewrite decide_False; [done|].
  intros ->. apply Hk. by apply list_elem_of_lookup_2 in Hkey.
Qed.

(** Two names that differ only by case are two entries of the builder
    and one header: it keeps the first spelling and the last value. *)
Lemma header_names_differing_by_case_merge :
  let q := GetQuery.header "x-a" (GetQuery.HString "2")
             (GetQuery.header "X-A" (GetQuery.HString "1")
                (GetQuery.new (DFunction HList) None)) in
  GetQuery.headers q = [("X-A", GetQuery.HString "1"); ("x-a", GetQuery.HString "2")] ∧
  GetQuery.getHttpHeaders q = Some [("X-A", "2")] ∧
  ¬ (∃ hs, GetQuery.getHttpHeaders q = Some hs ∧
           hs ≡ₚ (λ kv, (kv.1, GetQuery.hvalue_toString kv.2)) <$> GetQuery.headers q).
Proof.
  split; [reflexivity|]. split; [reflexivity|].
  intros (hs & Hhs & Hperm). injection Hhs as <-.
  apply Permutation_length in Hperm. discriminate.
Qed.

(** C9, amended. Without any header entry, header serialization yields
    no header object. With entries whose names are pairwise different
    ignoring case, it yields a header map that holds exactly the
    accumulated entries, names in the order of [Object.keys], a string
    value as it is and an array value joined with commas. (Names that
    differ only by case are merged into one header.) *)
Theorem getHttpHeaders_absent_or_exact (q : GetQuery.t) :
  (GetQuery.headers q = [] → GetQuery.getHttpHeaders q = None) ∧
  (GetQuery.headers q ≠ [] →
     ∃ hs : HttpHeaders,
       GetQuery.getHttpHeaders q = Some hs ∧
       (NoDup (toLowerCase <$> (GetQuery.headers q).*1) →
          hs.*1 = GetQuery.Object_keys (GetQuery.headers q) ∧
          hs ≡ₚ (λ kv, (kv.1, match kv.2 with
                              | GetQuery.HString s => s
                              | GetQuery.HStrings xs => String.concat "," xs
                              end)) <$> GetQuery.headers q)).
Proof.
  unfold GetQuery.getHttpHeaders. split.
  - intros ->. reflexivity.
  - intros Hne. rewrite bool_decide_eq_false_2 by (by rewrite Object_keys_nil).
    eexists. split; [reflexivity|]. intros Hnd.
    rewrite foldl_set_header_new.
    + simpl. split.
      * rewrite <- list_fmap_compose. apply list_fmap_id.
      * rewrite (Object_keys_perm (GetQuery.headers q)).
        rewrite (map_Object_get (from_option GetQuery.hvalue_toString "undefined"))
          by (by apply NoDup_fmap_1 in Hnd).
        erewrite list_fmap_ext; [reflexivity|]. by intros i [k [s|xs]] _.
    + simpl. by rewrite (Object_keys_perm (GetQuery.headers q)).
Qed.

Lemma getHttpHeaders_absent_or_exact_witness :
  let none := GetQuery.page 2 (GetQuery.new (DFunction HList) None) in
  let some := GetQuery.header "Accept" (GetQuery.HStrings ["text/html"; "text/plain"])
                (GetQuery.header "Authorization" (GetQuery.HString "Bearer abcdef")
                   (GetQuery.new (DFunction HList) None)) in
  GetQuery.getHttpHeaders none = None ∧
  GetQuery.getHttpHeaders some =
    Some [("Authorization", "Bearer abcdef"); ("Accept", "text/html,text/plain")] ∧
  ∃ hs : HttpHeaders,
    GetQuery.getHttpHeaders some = Some hs ∧
    hs.*1 = GetQuery.Object_keys (GetQuery.headers some) ∧
    hs ≡ₚ [("Authorization", "Bearer abcdef"); ("Accept", "text/html,text/plain")].
Proof.
  intros none some. split; [|split; [reflexivity|]].
  - apply (proj1 (getHttpHeaders_absent_or_exact none)). reflexivity.
  - destruct (proj2 (getHttpHeaders_absent_or_exact some)) as (hs & Hhs & Hexact);
      [discriminate|].
    exists hs. split; [exact Hhs|]. apply Hexact. compute_done.
Defined.

End GetQueryHeaders.

(** ** [GetQuery.get]: which delegate call is made *)

Section GetQueryGet.
Import Js Http.

(** No modifier changes the identifier or the delegate given to the
    constructor. *)
Lemma id_and_handler_unchanged (q : GetQuery.t) fields n f d k v :
  let same q' := GetQuery.id q' = GetQuery.id q ∧ GetQuery.getHandler q' = GetQuery.getHandler q in
  same (GetQuery.only fields q) ∧ same (GetQuery.limit n q) ∧ same (GetQuery.page n q) ∧
  same (GetQuery.orderBy f d q) ∧ same (GetQuery.header k v q) ∧ same (GetQuery.fresh q).
Proof. done. Qed.

Lemma findById_fields (svc : ResourceService.t) (i : scalar) :
  GetQuery.id (ResourceService.findById svc i) = Some i ∧
  GetQuery.getHandler (ResourceService.findById svc i) = DFunction HGet.
Proof. done. Qed.

Lemma findAll_fields (svc : ResourceService.t) :
  GetQuery.id (ResourceService.findAll svc) = None ∧
  GetQuery.getHandler (ResourceService.findAll svc) = DFunction HList.
Proof. done. Qed.

(** With the identifier [0], [get()] calls the single-resource delegate
    with [(params, headers)]: the identifier is not passed. *)
Lemma findById_zero_get :
  let q := ResourceService.findById Sample.userService (Num 0) in
  GetQuery.id q = Some (Num 0) ∧
  GetQuery.get q ≠
    {| Call.callee := DFunction HGet;
       Call.args := [Call.AScalar (Num 0); Call.AParams (GetQuery.getHttpParams q);
                     Call.of_headers (GetQuery.getHttpHeaders q)] |} ∧
  GetQuery.get q =
    {| Call.callee := DFunction HGet;
       Call.args := [Call.AParams (GetQuery.getHttpParams q);
                     Call.of_headers (GetQuery.getHttpHeaders q)] |}.
Proof. split; [reflexivity|]. split; [discriminate | reflexivity]. Qed.

(** The two branches of [get()] that pass what the delegate expects: a
    builder with a truthy identifier calls its delegate with
    [(id, params, headers)]; one constructed without an identifier calls
    it with [(params, headers)]. *)
Lemma get_delegate_call (q : GetQuery.t) :
  (∀ i, GetQuery.id q = Some i → scalar_truthy i = true →
     GetQuery.get q =
       {| Call.callee := GetQuery.getHandler q;
          Call.args := [Call.AScalar i; Call.AParams (GetQuery.getHttpParams q);
                        Call.of_headers (GetQuery.getHttpHeaders q)] |}) ∧
  (GetQuery.id q = None →
     GetQuery.get q =
       {| Call.callee := GetQuery.getHandler q;
          Call.args := [Call.AParams (GetQuery.getHttpParams q);
                        Call.of_headers (GetQuery.getHttpHeaders q)] |}).
Proof.
  unfold GetQuery.get. split.
  - intros i -> ->. reflexivity.
  - intros ->. reflexivity.
Qed.

Lemma get_delegate_call_witness :
  let byId := GetQuery.only ["id"; "name"] (ResourceService.findById Sample.userService (Num 123)) in
  let all := GetQuery.page 2 (ResourceService.findAll Sample.userService) in
  GetQuery.get byId =
    {| Call.callee := DFunction HGet;
       Call.args := [Call.AScalar (Num 123);
                     Call.AParams [(DString "only", "id,name")]; Call.ANull] |} ∧
  GetQuery.get all =
    {| Call.callee := DFunction HList;
       Call.args := [Call.AParams [(DString "page", "2")]; Call.ANull] |}.
Proof.
  intros byId all. split.
  - apply (proj1 (get_delegate_call byId) (Num 123)); reflexivity.
  - apply (proj2 (get_delegate_call all)); reflexivity.
Defined.

End GetQueryGet.

(** ** [SearchQuery]: filters *)

Section SearchQueryFilters.
Import Js Http.

Lemma andWhere_all_searchParams (calls : list (dyn * dyn)) (sq : SearchQuery.t) :
  SearchQuery.searchParams (Spec.andWhere_all calls sq) =
  SearchQuery.searchParams sq
    ++ map (λ c, {| SearchQuery.field := c.1; SearchQuery.value := dyn_toString c.2 |}) calls.
Proof.
  unfold Spec.andWhere_all. revert sq.
  induction calls as [|c calls IH]; intros sq; simpl.
  - by rewrite app_nil_r.
  - rewrite IH. simpl. by rewrite <- app_assoc.
Qed.

Lemma andWhere_all_base (calls : list (dyn * dyn)) (sq : SearchQuery.t) :
  SearchQuery.base (Spec.andWhere_all calls sq) = SearchQuery.base sq ∧
  SearchQuery.searchHandler (Spec.andWhere_all calls sq) = SearchQuery.searchHandler sq.
Proof.
  unfold Spec.andWhere_all. revert sq.
  induction calls as [|c calls IH]; intros sq; simpl; [done|].
  destruct (IH (SearchQuery.andWhere c.1 c.2 sq)) as [-> ->]. done.
Qed.

(** The loop shared by the three terminal operations. *)
Lemma foldl_set_searchParams (sps : list SearchQuery.SearchParam) (ps : HttpParams) :
  foldl (λ params searchParam,
           set (SearchQuery.field searchParam) (SearchQuery.value searchParam) params) ps sps =
  foldl (λ ps kv, set kv.1 kv.2 ps) ps
        (map (λ sp, (SearchQuery.field sp, SearchQuery.value sp)) sps).
Proof.
  revert ps. induction sps as [|sp sps IH]; intros ps; simpl; [done|]. by rewrite IH.
Qed.

(** Two filters on the same field: the second [set] replaces the first,
    so the first pair is not among the parameters sent. *)
Lemma andWhere_same_field_replaces :
  let sq := SearchQuery.andWhere (DString "a") (DNumber 2)
              (SearchQuery.new (DString "a") (DNumber 1) (DFunction HSearch)) in
  Spec.filter_pairs sq = [(DString "a", "1"); (DString "a", "2")] ∧
  Spec.params_of (SearchQuery.get sq) = Some [(DString "a", "2")] ∧
  Spec.params_of (SearchQuery.get sq) ≠
    Some (GetQuery.getHttpParams (SearchQuery.base sq) ++ Spec.filter_pairs sq).
Proof. split; [reflexivity|]. split; [reflexivity | discriminate]. Qed.

(** A filter on a field named like a read parameter replaces that
    parameter where it stands. *)
Lemma andWhere_read_param_name_replaces :
  let sq := SearchQuery.inherited (GetQuery.limit 10)
              (SearchQuery.andWhere (DString "only") (DString "x")
                 (SearchQuery.inherited (GetQuery.only ["id"])
                    (SearchQuery.new (DString "a") (DNumber 1) (DFunction HSearch)))) in
  Spec.params_of (SearchQuery.get sq) =
    Some [(DString "only", "x"); (DString "limit", "10"); (DString "a", "1")].
Proof. reflexivity. Qed.

(** C6, amended. Each [andWhere] call appends one filter pair to the
    builder. When the filter fields are pairwise distinct and differ from
    the read parameters present, the parameters passed on by [get],
    [remove] and [patch] are the read parameters followed by the filter
    pairs in the order the calls were made. *)
Theorem andWhere_appends_filters_in_order (sq : SearchQuery.t) (calls : list (dyn * dyn)) :
  let sq' := Spec.andWhere_all calls sq in
  Spec.filter_pairs sq' =
    Spec.filter_pairs sq ++ map (λ c, (c.1, dyn_toString c.2)) calls ∧
  (NoDup (keys (GetQuery.getHttpParams (SearchQuery.base sq')) ++ keys (Spec.filter_pairs sq')) →
   let sent := GetQuery.getHttpParams (SearchQuery.base sq) ++ Spec.filter_pairs sq' in
   Spec.params_of (SearchQuery.get sq') = Some sent ∧
   Spec.params_of (SearchQuery.remove sq') = Some sent ∧
   ∀ resource, Spec.params_of (SearchQuery.patch resource sq') = Some sent).
Proof.
  intros sq'. split.
  - unfold Spec.filter_pairs, sq'. rewrite andWhere_all_searchParams, map_app, map_map. done.
  - intros Hnd sent. unfold sent.
    rewrite <- (proj1 (andWhere_all_base calls sq)). fold sq'.
    unfold Spec.params_of, SearchQuery.get, SearchQuery.remove, SearchQuery.patch. simpl.
    rewrite foldl_set_searchParams.
    fold (Spec.filter_pairs sq'). rewrite (foldl_set_new _ _ Hnd). done.
Qed.

Lemma andWhere_appends_filters_in_order_witness :
  let sq := SearchQuery.inherited (GetQuery.only ["id"; "name"])
              (SearchQuery.new (DString "id") (DNumber 123) (DFunction HSearch)) in
  let sq' := SearchQuery.andWhere (DString "name") (DString "abc") sq in
  NoDup (keys (GetQuery.getHttpParams (SearchQuery.base sq')) ++ keys (Spec.filter_pairs sq')) ∧
  Spec.params_of (SearchQuery.get sq') =
    Some [(DString "only", "id,name"); (DString "id", "123"); (DString "name", "abc")].
Proof.
  intros sq sq'.
  assert (NoDup (keys (GetQuery.getHttpParams (SearchQuery.base sq'))
                   ++ keys (Spec.filter_pairs sq'))) as Hnd.
  { compute_done. }
  split; [exact Hnd|].
  apply (proj2 (andWhere_appends_filters_in_order sq [(DString "name", DString "abc")]) Hnd).
Defined.

End SearchQueryFilters.

(** ** [ResourceService]: the write operations and failures *)

Section ServiceWrites.
Import Js Http.

Ltac run :=
  unfold ResourceService.list, ResourceService.get, ResourceService.create,
    ResourceService.update, ResourceService.patch, ResourceService.remove,
    ResourceService.search, ResourceService.upload, ResourceService.uploadFor,
    ResourceService.send, ResourceService.emit, ResourceService.resource_id,
    ResourceService.Object_assign, ResourceService.throw,
    mbind, ResourceService.M_bind, mret, ResourceService.M_ret;
  simpl.

(** The URL of a single resource: [apiUrl + '/' + resource.id]. *)
Lemma resource_url_id (svc : ResourceService.t) (r : loc) (o : obj) (i : val)
    (st : ResourceService.state) :
  ResourceService.heap st !! r = Some o → o !! "id" = Some i →
  ResourceService.resource_id r st = (ResourceService.Ok (val_toString i), st).
Proof.
  intros Hr Hi. unfold ResourceService.resource_id. rewrite Hr. simpl. by rewrite Hi.
Qed.


(** C8. [remove(resource)] sends one DELETE to [apiUrl/<id>] and, whatever
    body a successful answer carries, resolves with the same reference
    and leaves every object of the heap as it was. *)
Theorem remove_resolves_with_untouched_resource (svc : ResourceService.t) (resource : loc)
    (params : option HttpParams) (headers : option HttpHeaders) (body : option obj)
    (st : ResourceService.state) :
  ResourceService.remove svc resource params headers (ResourceService.Success body) st =
  (ResourceService.Ok (ResourceService.Resolved resource),
   {| ResourceService.heap := ResourceService.heap st;
      ResourceService.trace := ResourceService.trace st ++
        [ResourceService.Sent
           {| rq_verb := DELETE;
              rq_url := ResourceService.apiUrl svc +:+ "/" +:+
                val_toString (default VUndefined
                  (ResourceService.heap st !! resource ≫= (λ o : obj, o !! "id")));
              rq_body := None; rq_params := params; rq_headers := headers |}] |}).
Proof. reflexivity. Qed.

(** C5. When the transport fails with [err], each of [list], [get],
    [create], [update], [patch], [remove], [search] (with any method),
    [upload] and [uploadFor] rejects with that same [err]; the heap is
    unchanged and the trace gains the request alone: nothing was
    instantiated or merged. *)
Theorem transport_failure_is_propagated (svc : ResourceService.t)
    (err : ResourceService.HttpErrorResponse) (params : option HttpParams)
    (headers : option HttpHeaders) (st : ResourceService.state) :
  let rejected {A} (m : ResourceService.M (ResourceService.promise A)) :=
    ∃ r, m st = (ResourceService.Ok (ResourceService.Rejected err),
                 {| ResourceService.heap := ResourceService.heap st;
                    ResourceService.trace :=
                      ResourceService.trace st ++ [ResourceService.Sent r] |}) in
  rejected (ResourceService.list svc params headers (ResourceService.Failure err)) ∧
  (∀ id, rejected (ResourceService.get svc id params headers (ResourceService.Failure err))) ∧
  (∀ resource,
     rejected (ResourceService.create svc resource params headers (ResourceService.Failure err)) ∧
     rejected (ResourceService.update svc resource params headers (ResourceService.Failure err)) ∧
     rejected (ResourceService.patch svc resource params headers (ResourceService.Failure err)) ∧
     rejected (ResourceService.remove svc resource params headers (ResourceService.Failure err))) ∧
  (∀ method resource,
     rejected (ResourceService.search svc params method resource headers
                 (ResourceService.Failure err))) ∧
  (∀ (K : Type) formData,
     rejected (ResourceService.upload (K:=K) svc formData params headers
                 (ResourceService.Failure err)) ∧
     ∀ resource,
       rejected (ResourceService.uploadFor (K:=K) svc resource formData params headers
                   (ResourceService.Failure err))).
Proof.
  intros rejected. unfold rejected. repeat split; intros; run;
    try (eexists; reflexivity).
  destruct method; simpl; eexists; reflexivity.
Qed.



End ServiceWrites.

(** ** [ResourceService]: materialization *)

Section Materialization.
Import Js Http.

Variable svc : ResourceService.t.

Lemma assigned_has_raw_fields (raw : obj) (k : string) (v : val) :
  raw !! k = Some v → Spec.assigned (ResourceService.modelClass svc) raw !! k = Some v.
Proof. intros Hk. by apply lookup_union_Some_l. Qed.

Lemma passes_shadow (c : ResourceService.ModelClass) (raw : obj) (v : val) :
  Spec.passes c raw = true → Spec.shadow c raw = Some v → truthy v = false.
Proof.
  unfold Spec.passes. intros [_ Hv]%andb_prop Hs. rewrite Hs in Hv. simpl in Hv.
  by apply negb_true_iff.
Qed.

(** One round of the loop on a record that gets past the callback. *)
Lemma instantiate_passes (raw : obj) (st : ResourceService.state) :
  Spec.passes (ResourceService.modelClass svc) raw = true →
  let l := fresh (dom (ResourceService.heap st)) in
  Spec.instantiate (ResourceService.modelClass svc) (Some raw) st =
  (ResourceService.Ok l,
   {| ResourceService.heap :=
        <[l := Spec.built (ResourceService.modelClass svc) raw]> (ResourceService.heap st);
      ResourceService.trace :=
        ResourceService.trace st ++ Spec.hook_event (ResourceService.modelClass svc) l raw |}).
Proof.
  intros Hpass l.
  pose proof (λ v, passes_shadow _ raw v Hpass) as Hfalsy.
  unfold Spec.instantiate, ResourceService.construct, ResourceService.Object_assign,
    ResourceService.get_onInstantiated, mbind, ResourceService.M_bind, mret,
    ResourceService.M_ret, Spec.built, Spec.hook_event, Spec.hooked, Spec.materialized.
  simpl. fold l.
  rewrite alter_insert_eq, lookup_insert_eq. simpl.
  fold (Spec.assigned (ResourceService.modelClass svc) raw).
  unfold Spec.shadow in *.
  destruct (Spec.assigned (ResourceService.modelClass svc) raw !! "onInstantiated")
    as [v|] eqn:Hshadow; simpl.
  - rewrite (Hfalsy v eq_refl). simpl. by rewrite app_nil_r.
  - destruct (ResourceService.onInstantiated (ResourceService.modelClass svc)) as [f|]; simpl.
    + rewrite alter_insert_eq, lookup_insert_eq. reflexivity.
    + by rewrite app_nil_r.
Qed.

Lemma hook_events_cons c l items row rows :
  Spec.hook_events c (l :: items) (row :: rows) =
  Spec.hook_event c l row ++ Spec.hook_events c items rows.
Proof. reflexivity. Qed.

Lemma for_of_passes (rows : list obj) (st : ResourceService.state) :
  Forall (λ row, Spec.passes (ResourceService.modelClass svc) row = true) rows →
  ∃ items st',
    ResourceService.for_of rows
      (λ row, Spec.instantiate (ResourceService.modelClass svc) (Some row)) st =
      (ResourceService.Ok items, st') ∧
    Spec.instantiated (ResourceService.modelClass svc) rows items st st' [].
Proof.
  revert st. induction rows as [|row rows IH]; intros st Hrows.
  - exists [], st. split; [reflexivity|].
    repeat split; simpl; try done.
    + apply NoDup_nil_2.
    + intros l Hl. by apply elem_of_nil in Hl.
    + by rewrite app_nil_r.
  - apply Forall_cons in Hrows as [Hrow Hrows].
    pose proof (instantiate_passes row st Hrow) as Hstep. simpl in Hstep.
    set (l := fresh (dom (ResourceService.heap st))) in *.
    set (st1 := {| ResourceService.heap := _; ResourceService.trace := _ |}) in Hstep.
    destruct (IH st1 Hrows) as (items & st' & Hrun & Hlen & Hnd & Hfresh & Hnew & Hold & Htr).
    assert (ResourceService.heap st !! l = None) as Hl.
    { apply not_elem_of_dom. apply is_fresh. }
    assert (l ∉ items) as Hnotin.
    { intros Hin. specialize (Hfresh l Hin). simpl in Hfresh.
      by rewrite lookup_insert_eq in Hfresh. }
    exists (l :: items), st'. split.
    { simpl. unfold mbind, ResourceService.M_bind at 1. rewrite Hstep.
      unfold mbind, ResourceService.M_bind at 1. rewrite Hrun. reflexivity. }
    repeat split.
    + simpl. by rewrite Hlen.
    + by apply NoDup_cons.
    + intros l' [->|Hin]%elem_of_cons; [done|].
      specialize (Hfresh l' Hin). simpl in Hfresh.
      rewrite lookup_insert_ne in Hfresh; [done|]. intros <-. done.
    + intros [|i] row' l' Hr Hi; simpl in Hr, Hi.
      * injection Hr as <-. injection Hi as <-.
        rewrite (Hold l Hnotin). simpl. by rewrite lookup_insert_eq.
      * by apply (Hnew i).
    + intros l' [Hne Hnotin']%not_elem_of_cons.
      rewrite (Hold l' Hnotin'). simpl. by rewrite lookup_insert_ne.
    + rewrite Htr, (hook_events_cons _ l items row rows). simpl. by rewrite <- !app_assoc.
Qed.

Lemma instantiated_after_send (rows : list obj) (items : list loc)
    (st st' : ResourceService.state) (r : Request) :
  Spec.instantiated (ResourceService.modelClass svc) rows items
    {| ResourceService.heap := ResourceService.heap st;
       ResourceService.trace := ResourceService.trace st ++ [ResourceService.Sent r] |} st' [] →
  Spec.instantiated (ResourceService.modelClass svc) rows items st st' [ResourceService.Sent r].
Proof.
  intros (Hlen & Hnd & Hfresh & Hnew & Hold & Htr). repeat split; try done.
  rewrite Htr. simpl. by rewrite <- app_assoc.
Qed.

Lemma hook_calls_app (l : loc) (t1 t2 : list ResourceService.event) :
  Spec.hook_calls l (t1 ++ t2) = (Spec.hook_calls l t1 + Spec.hook_calls l t2)%nat.
Proof. unfold Spec.hook_calls. by rewrite List.filter_app, length_app. Qed.

Lemma hook_calls_event (c : ResourceService.ModelClass) (l l' : loc) (row : obj) :
  Spec.hook_calls l (Spec.hook_event c l' row) =
  if bool_decide (l' = l) then (if Spec.hooked c row then 1 else 0)%nat else 0%nat.
Proof.
  unfold Spec.hook_calls, Spec.hook_event.
  destruct (Spec.hooked c row); simpl; by destruct (bool_decide (l' = l)).
Qed.

Lemma hook_calls_absent (c : ResourceService.ModelClass) (l : loc)
    (items : list loc) (rows : list obj) :
  l ∉ items → Spec.hook_calls l (Spec.hook_events c items rows) = 0%nat.
Proof.
  revert rows. induction items as [|l' items IH]; intros [|row rows] Hl; try done.
  apply not_elem_of_cons in Hl as [Hne Hl].
  rewrite hook_events_cons, hook_calls_app, hook_calls_event, IH by done.
  by rewrite bool_decide_eq_false_2 by congruence.
Qed.

(** Among the hook invocations for pairwise distinct instances, the
    instance of a row occurs once when the hook applies to the row, and
    not at all otherwise. *)
Lemma hook_calls_present (c : ResourceService.ModelClass) (items : list loc) (rows : list obj)
    (i : nat) (row : obj) (l : loc) :
  NoDup items → rows !! i = Some row → items !! i = Some l →
  Spec.hook_calls l (Spec.hook_events c items rows) = (if Spec.hooked c row then 1 else 0)%nat.
Proof.
  revert rows i. induction items as [|l' items IH]; intros [|row' rows] i Hnd Hr Hi;
    try done.
  apply NoDup_cons in Hnd as [Hnotin Hnd].
  rewrite hook_events_cons, hook_calls_app, hook_calls_event.
  destruct i as [|i]; simpl in Hr, Hi.
  - injection Hr as ->. injection Hi as ->.
    rewrite bool_decide_eq_true_2, hook_calls_absent by done. lia.
  - rewrite bool_decide_eq_false_2.
    + by rewrite (IH rows i).
    + intros ->. apply Hnotin. by eapply list_elem_of_lookup_2.
Qed.

(** [get] runs the statements of [Spec.instantiate] on its one record. *)
Lemma get_instantiates (id : scalar) (params : option HttpParams) (headers : option HttpHeaders)
    (data : option obj) (st : ResourceService.state) :
  ResourceService.get svc id params headers (ResourceService.Success data) st =
  (ResourceService.send
     {| rq_verb := GET; rq_url := ResourceService.apiUrl svc +:+ "/" +:+ scalar_toString id;
        rq_body := None; rq_params := params; rq_headers := headers |};;
   item ← Spec.instantiate (ResourceService.modelClass svc) data;
   mret (ResourceService.Resolved item)) st.
Proof.
  unfold ResourceService.get, Spec.instantiate, mbind, ResourceService.M_bind, mret,
    ResourceService.M_ret.
  repeat (case_match; simplify_eq; try reflexivity).
Qed.

Lemma generateListResponse_rows (rows : list obj) (meta : option obj)
    (st : ResourceService.state) :
  ResourceService.generateListResponse svc
    (Some {| ResourceService.data := Some rows; ResourceService.meta := meta |}) st =
  match ResourceService.for_of rows
          (λ row, Spec.instantiate (ResourceService.modelClass svc) (Some row)) st with
  | (ResourceService.Ok items, st') =>
      (ResourceService.Ok
         {| ResourceService.data := Some items; ResourceService.meta := meta |}, st')
  | (ResourceService.Throw e, st') => (ResourceService.Throw e, st')
  end.
Proof. reflexivity. Qed.

Lemma list_success (params : option HttpParams) (headers : option HttpHeaders)
    (result : option (ResourceService.ListResponse obj)) (st : ResourceService.state) :
  ResourceService.list svc params headers (ResourceService.Success result) st =
  match ResourceService.generateListResponse svc result
          {| ResourceService.heap := ResourceService.heap st;
             ResourceService.trace := ResourceService.trace st ++
               [ResourceService.Sent
                  {| rq_verb := GET; rq_url := ResourceService.apiUrl svc;
                     rq_body := None; rq_params := params; rq_headers := headers |}] |} with
  | (ResourceService.Ok r, st') => (ResourceService.Ok (ResourceService.Resolved r), st')
  | (ResourceService.Throw e, st') => (ResourceService.Throw e, st')
  end.
Proof. reflexivity. Qed.

Lemma search_get_success (params : option HttpParams) (resource : option loc)
    (headers : option HttpHeaders) (result : option (ResourceService.ListResponse obj))
    (st : ResourceService.state) :
  ResourceService.search svc params Call.MGet resource headers
    (ResourceService.Success result) st =
  match ResourceService.generateListResponse svc result
          {| ResourceService.heap := ResourceService.heap st;
             ResourceService.trace := ResourceService.trace st ++
               [ResourceService.Sent
                  {| rq_verb := GET; rq_url := ResourceService.apiUrl svc +:+ "/search";
                     rq_body := None; rq_params := params; rq_headers := headers |}] |} with
  | (ResourceService.Ok r, st') => (ResourceService.Ok (ResourceService.Resolved (Some r)), st')
  | (ResourceService.Throw e, st') => (ResourceService.Throw e, st')
  end.
Proof. reflexivity. Qed.

(** C3, amended. Take an answer none of whose raw records has a key
    [__proto__] or leaves a truthy own field [onInstantiated] on its
    instance (then the success callback throws and nothing is resolved).
    [get] resolves with a new instance of the model class holding every
    field of the record; [list] and [search] with [get] do so for every
    record of [data], in order. For each record that leaves no own field
    [onInstantiated] on its instance, and a class that declares the hook,
    the hook is invoked exactly once on that instance, with all fields
    assigned, before the promise is resolved; on the instance of a record
    that leaves a falsy field of that name it is not invoked. *)
Theorem materialization_runs_hook_once_after_assign (st : ResourceService.state) :
  let c := ResourceService.modelClass svc in
  (∀ raw k v, raw !! k = Some v → Spec.assigned c raw !! k = Some v) ∧
  (∀ id params headers raw, Spec.passes c raw = true →
     ∃ item st',
       ResourceService.get svc id params headers (ResourceService.Success (Some raw)) st =
         (ResourceService.Ok (ResourceService.Resolved item), st') ∧
       Spec.instantiated c [raw] [item] st st'
         [ResourceService.Sent
            {| rq_verb := GET;
               rq_url := ResourceService.apiUrl svc +:+ "/" +:+ scalar_toString id;
               rq_body := None; rq_params := params; rq_headers := headers |}]) ∧
  (∀ params headers rows meta, Forall (λ row, Spec.passes c row = true) rows →
     ∃ items st',
       ResourceService.list svc params headers
         (ResourceService.Success
            (Some {| ResourceService.data := Some rows; ResourceService.meta := meta |})) st =
         (ResourceService.Ok (ResourceService.Resolved
            {| ResourceService.data := Some items; ResourceService.meta := meta |}), st') ∧
       Spec.instantiated c rows items st st'
         [ResourceService.Sent
            {| rq_verb := GET; rq_url := ResourceService.apiUrl svc;
               rq_body := None; rq_params := params; rq_headers := headers |}]) ∧
  (∀ params resource headers rows meta, Forall (λ row, Spec.passes c row = true) rows →
     ∃ items st',
       ResourceService.search svc params Call.MGet resource headers
         (ResourceService.Success
            (Some {| ResourceService.data := Some rows; ResourceService.meta := meta |})) st =
         (ResourceService.Ok (ResourceService.Resolved (Some
            {| ResourceService.data := Some items; ResourceService.meta := meta |})), st') ∧
       Spec.instantiated c rows items st st'
         [ResourceService.Sent
            {| rq_verb := GET; rq_url := ResourceService.apiUrl svc +:+ "/search";
               rq_body := None; rq_params := params; rq_headers := headers |}]) ∧
  (∀ rows items st' r i row l,
     Spec.instantiated c rows items st st' [ResourceService.Sent r] →
     rows !! i = Some row → items !! i = Some l →
     Spec.hook_calls l (drop (length (ResourceService.trace st)) (ResourceService.trace st'))
     = (if Spec.hooked c row then 1 else 0)%nat).
Proof.
  intros c. split; [apply assigned_has_raw_fields|]. split; [|split; [|split]].
  - intros id params headers raw Hraw.
    rewrite get_instantiates.
    unfold mbind, ResourceService.M_bind, ResourceService.send, ResourceService.emit. simpl.
    rewrite (instantiate_passes raw _ Hraw). simpl.
    set (l := fresh (dom (ResourceService.heap st))).
    assert (ResourceService.heap st !! l = None) as Hl
      by (apply not_elem_of_dom, is_fresh).
    eexists _, _. split; [reflexivity|]. repeat split; simpl.
    + apply NoDup_singleton.
    + by intros l' ->%list_elem_of_singleton.
    + intros [|i] row l' Hr Hi; simpl in Hr, Hi; [|done].
      injection Hr as <-. injection Hi as <-. by rewrite lookup_insert_eq.
    + intros l' Hne%not_elem_of_cons. rewrite lookup_insert_ne; [done|]. by destruct Hne.
    + unfold Spec.hook_events. simpl. by rewrite app_nil_r, <- app_assoc.
  - intros params headers rows meta Hrows.
    rewrite list_success, generateListResponse_rows.
    edestruct (for_of_passes rows) as (items & st' & -> & Hre); [exact Hrows|].
    exists items, st'. split; [reflexivity|]. by apply instantiated_after_send.
  - intros params resource headers rows meta Hrows.
    rewrite search_get_success, generateListResponse_rows.
    edestruct (for_of_passes rows) as (items & st' & -> & Hre); [exact Hrows|].
    exists items, st'. split; [reflexivity|]. by apply instantiated_after_send.
  - intros rows items st' r i row l (Hlen & Hnd & _ & _ & _ & Htr) Hr Hi.
    rewrite Htr, drop_app_length, hook_calls_app.
    by rewrite (hook_calls_present c items rows i row l).
Qed.

End Materialization.

(** ** From the terminal operations to the request *)

Section SearchRequest.
Import Js Http.

Variable svc : ResourceService.t.

Lemma requests_app (t1 t2 : list ResourceService.event) :
  Spec.requests (t1 ++ t2) = Spec.requests t1 ++ Spec.requests t2.
Proof. apply omap_app. Qed.

(** Materializing one record adds hook invocations to the trace, nothing
    else. *)
Lemma instantiate_extends (row : option obj) (st : ResourceService.state) :
  ∃ more, ResourceService.trace (Spec.instantiate (ResourceService.modelClass svc) row st).2 =
          ResourceService.trace st ++ more ∧
          Spec.requests more = [].
Proof.
  unfold Spec.instantiate, ResourceService.construct, ResourceService.Object_assign,
    ResourceService.get_onInstantiated, ResourceService.call_onInstantiated,
    ResourceService.throw, mbind, ResourceService.M_bind, mret, ResourceService.M_ret.
  repeat (case_match; simplify_eq; simpl in *);
    first [by exists []; rewrite app_nil_r | by eexists].
Qed.

Lemma for_of_extends (rows : list obj) (st : ResourceService.state) :
  ∃ more,
    ResourceService.trace
      (ResourceService.for_of rows
         (λ row, Spec.instantiate (ResourceService.modelClass svc) (Some row)) st).2 =
    ResourceService.trace st ++ more ∧
    Spec.requests more = [].
Proof.
  revert st. induction rows as [|row rows IH]; intros st; simpl.
  - exists []. by rewrite app_nil_r.
  - unfold mbind, ResourceService.M_bind at 1.
    destruct (instantiate_extends (Some row) st) as (m1 & H1 & R1).
    destruct (Spec.instantiate _ (Some row) st) as [[l|e] st1]; simpl in *; [|by eexists].
    unfold mbind, ResourceService.M_bind at 1.
    destruct (IH st1) as (m2 & H2 & R2).
    destruct (ResourceService.for_of rows _ st1) as [[ls|e] st2]; simpl in *;
      rewrite H2, H1, <- app_assoc; (eexists; split; [done|]);
      by rewrite requests_app, R1, R2.
Qed.

(** Whatever the transport answers, [search] sends exactly one request:
    to [apiUrl/search], with the verb of [method], carrying the
    parameters and headers it was given. *)
Lemma search_sends_its_params (params : option HttpParams) (method : Call.SearchMethod)
    (resource : option loc) (headers : option HttpHeaders)
    (reply : ResourceService.response (option (ResourceService.ListResponse obj)))
    (st : ResourceService.state) :
  ∃ body,
    Spec.requests (ResourceService.trace
      (ResourceService.search svc params method resource headers reply st).2) =
    Spec.requests (ResourceService.trace st) ++
      [{| rq_verb := ResourceService.verb_of method;
          rq_url := ResourceService.apiUrl svc +:+ "/search";
          rq_body := body; rq_params := params; rq_headers := headers |}].
Proof.
  destruct method, reply as [[[[rows|] meta]|]|err];
    try (eexists; simpl; rewrite requests_app; reflexivity).
  rewrite search_get_success, generateListResponse_rows.
  match goal with |- context [ResourceService.for_of rows ?f ?s] =>
    destruct (for_of_extends rows s) as (more & Hmore & Hreq);
    destruct (ResourceService.for_of rows f s) as [[items|e] st'] end;
    simpl in *; rewrite Hmore, !requests_app, Hreq, app_nil_r; by eexists.
Qed.

End SearchRequest.

Section MaterializationExamples.
Import Js Http.

(** A raw record with a field [onInstantiated: null] shadows the method
    of [User]: the instance is resolved, the hook never ran. *)
Lemma raw_onInstantiated_field_skips_hook :
  let raw : obj := {[ "id" := VNum 123; "onInstantiated" := VNull ]} in
  is_Some (ResourceService.onInstantiated Sample.User) ∧
  ∃ item st',
    ResourceService.get Sample.userService (Num 123) None None
      (ResourceService.Success (Some raw)) Sample.empty_state =
      (ResourceService.Ok (ResourceService.Resolved item), st') ∧
    ResourceService.heap st' !! item = Some raw ∧
    Spec.hook_calls item (ResourceService.trace st') = 0%nat.
Proof.
  intros raw. split; [by eexists|].
  eexists _, _. split; [vm_compute; reflexivity|]. split; vm_compute; reflexivity.
Qed.

(** A list of two records, the second with a field [onInstantiated:
    null]: both instances are resolved, the first stamped by the hook of
    [User], which ran once on it, the second as its record, without any
    hook invocation. *)
Lemma materialization_runs_hook_once_after_assign_witness :
  let plain : obj := {[ "id" := VNum 1; "name" := VStr "abc" ]} in
  let shadowing : obj := {[ "id" := VNum 2; "onInstantiated" := VNull ]} in
  ∃ l1 l2 st',
    ResourceService.list Sample.userService None None
      (ResourceService.Success
         (Some {| ResourceService.data := Some [plain; shadowing];
                  ResourceService.meta := None |})) Sample.empty_state =
      (ResourceService.Ok (ResourceService.Resolved
         {| ResourceService.data := Some [l1; l2]; ResourceService.meta := None |}), st') ∧
    l1 ≠ l2 ∧
    ResourceService.heap st' !! l1 = Some (<["instantiated_at" := VNum 1]> plain) ∧
    ResourceService.heap st' !! l2 = Some shadowing ∧
    Spec.hook_calls l1 (ResourceService.trace st') = 1%nat ∧
    Spec.hook_calls l2 (ResourceService.trace st') = 0%nat.
Proof.
  intros plain shadowing.
  pose proof (materialization_runs_hook_once_after_assign
                Sample.userService Sample.empty_state) as (_ & _ & Hlist & _ & Hcalls).
  destruct (Hlist None None [plain; shadowing] None) as (items & st' & Hrun & Hinst).
  { constructor; [reflexivity|]. constructor; [reflexivity|]. constructor. }
  pose proof Hinst as (Hlen & Hnd & _ & Hnew & _ & _).
  destruct items as [|l1 [|l2 [|l3 items]]]; try discriminate Hlen.
  exists l1, l2, st'. split; [exact Hrun|]. split.
  { apply NoDup_cons in Hnd as [Hnotin _]. intros ->. apply Hnotin. left. }
  split; [exact (Hnew 0%nat plain l1 eq_refl eq_refl)|].
  split; [exact (Hnew 1%nat shadowing l2 eq_refl eq_refl)|].
  split.
  - exact (Hcalls _ _ _ _ 0%nat plain l1 Hinst eq_refl eq_refl).
  - exact (Hcalls _ _ _ _ 1%nat shadowing l2 Hinst eq_refl eq_refl).
Defined.

End MaterializationExamples.

(** ** [findWhere]: the search query it builds *)

Section FindWhere.
Import Js Http.

(** What [findWhere] stores: the bound [search] as the filter field, the
    field name as the filter value, and the searched value as the
    handler. *)
Lemma findWhere_fields (svc : ResourceService.t) (field : string) (value : dyn) :
  let sq := ResourceService.findWhere svc field value in
  SearchQuery.searchParams sq =
    [{| SearchQuery.field := DFunction HSearch; SearchQuery.value := field |}] ∧
  SearchQuery.searchHandler sq = value.
Proof. done. Qed.

(** A [SearchQuery] constructed with its arguments in declaration order
    [(field, value, searchHandler)] deletes through the bound [search]:
    one DELETE to [apiUrl/search] with the single pair [id=1,2,3]. *)
Lemma SearchQuery_remove_array (svc : ResourceService.t) (tr : ResourceService.Transport)
    (body : option (ResourceService.ListResponse obj)) (st : ResourceService.state) :
  ResourceService.list_reply tr = ResourceService.Success body →
  ∃ m, ResourceService.invoke svc
         (SearchQuery.remove
            (SearchQuery.new (DString "id") (DArray [Num 1; Num 2; Num 3]) (DFunction HSearch)))
         tr = Some m ∧
       m st =
         (ResourceService.Ok (ResourceService.OfSearch (ResourceService.Resolved None)),
          {| ResourceService.heap := ResourceService.heap st;
             ResourceService.trace := ResourceService.trace st ++
               [ResourceService.Sent
                  {| rq_verb := DELETE; rq_url := ResourceService.apiUrl svc +:+ "/search";
                     rq_body := None;
                     rq_params := Some [(DString "id", "1,2,3")];
                     rq_headers := None |}] |}).
Proof.
  intros Hreply. eexists. split; [reflexivity|].
  unfold mbind, ResourceService.M_bind, ResourceService.search. rewrite Hreply. reflexivity.
Qed.

(** C1. [findWhere('id', [1,2,3])] followed by [remove()]: the call of
    the stored handler throws a [TypeError], because the handler is the
    array [[1,2,3]]; no request is sent. *)
Theorem findWhere_remove_throws (baseUrl : string) (c : ResourceService.ModelClass)
    (tr : ResourceService.Transport) (st : ResourceService.state) :
  let svc := ResourceService.new baseUrl c in
  let sq := ResourceService.findWhere svc "id" (DArray [Num 1; Num 2; Num 3]) in
  Call.callee (SearchQuery.remove sq) = DArray [Num 1; Num 2; Num 3] ∧
  ∃ m, ResourceService.invoke svc (SearchQuery.remove sq) tr = Some m ∧
       m st = (ResourceService.Throw (ResourceService.TypeError "is not a function"), st) ∧
       Spec.requests (ResourceService.trace (m st).2) = Spec.requests (ResourceService.trace st).
Proof.
  intros svc sq. split; [reflexivity|].
  eexists. split; [reflexivity|]. split; reflexivity.
Qed.

End FindWhere.

(** * Further properties *)

(** ** [GetQuery]: the shape of the serialized parameters *)

Section ReadParams.
Import Js Http.

(** X1. The serialized read parameters are exactly the parameters that
    are set, each once, always in the order [only], [limit], [page],
    [order], whatever the order of the modifier calls. *)
Theorem getHttpParams_normal_form (q : GetQuery.t) :
  GetQuery.getHttpParams q =
    (if bool_decide (GetQuery.onlyFields q = []) then []
     else [(DString "only", join "," (GetQuery.onlyFields q))])
    ++ Spec.number_param "limit" (GetQuery.limitResult q)
    ++ Spec.number_param "page" (GetQuery.pageNumber q)
    ++ (if bool_decide (GetQuery.orderByFields q = []) then []
        else [(DString "order",
               JSON_stringify (JArray (map GetQuery.orderByEntry (GetQuery.orderByFields q))))]) ∧
  keys (GetQuery.getHttpParams q)
    `sublist_of` [DString "only"; DString "limit"; DString "page"; DString "order"].
Proof.
  unfold GetQuery.getHttpParams, new_HttpParams, Spec.number_param, keys.
  rewrite foldl_push. simpl app.
  destruct (GetQuery.limitResult q) as [n|], (GetQuery.pageNumber q) as [m|];
    try destruct (Z.eqb n 0); try destruct (Z.eqb m 0);
    repeat case_bool_decide; simpl; (split; [reflexivity | repeat constructor]).
Qed.

End ReadParams.

(** ** [GetQuery]: headers set more than once *)

Section HeaderOverwrite.
Import Js Http.

Lemma last_all_equal {A} (x : A) (l : list A) :
  l ≠ [] → Forall (λ y, y = x) l → last l = Some x.
Proof.
  induction l as [|y l IH]; [done|]. intros _ [-> Hl]%Forall_cons.
  rewrite last_cons. destruct l as [|z l]; [done|]. by rewrite IH.
Qed.

(** X2. Setting a header again under the same name replaces its value
    where it stands: the builder is as if only the last call had been
    made, and likewise [fresh()] after an earlier [no-cache] header. When
    no other name of the builder equals that name ignoring case, the
    serialized headers return the last value for it, a string as it is
    and an array joined with commas. *)
Theorem header_last_value_wins (q : GetQuery.t) (k : string) (v1 v2 : GetQuery.hvalue) :
  GetQuery.header k v2 (GetQuery.header k v1 q) = GetQuery.header k v2 q ∧
  GetQuery.fresh (GetQuery.header "no-cache" v1 q) = GetQuery.fresh q ∧
  (k ≠ "__proto__" →
   (∀ k', k' ∈ (GetQuery.headers q).*1 → toLowerCase k' = toLowerCase k → k' = k) →
   ∃ hs, GetQuery.getHttpHeaders (GetQuery.header k v2 (GetQuery.header k v1 q)) = Some hs ∧
         get_header k hs =
           Some (match v2 with
                 | GetQuery.HString s => s
                 | GetQuery.HStrings xs => String.concat "," xs
                 end)).
Proof.
  assert (∀ key (w1 w2 : GetQuery.hvalue) o,
            GetQuery.Object_set key w2 (GetQuery.Object_set key w1 o) =
            GetQuery.Object_set key w2 o) as Htwice.
  { intros key w1 w2 o. unfold GetQuery.Object_set.
    case_decide; [done | apply assoc_set_twice]. }
  assert (GetQuery.header k v2 (GetQuery.header k v1 q) = GetQuery.header k v2 q) as Hsame.
  { unfold GetQuery.header. simpl. by rewrite Htwice. }
  split; [exact Hsame|]. split.
  { unfold GetQuery.fresh, GetQuery.header. simpl. by rewrite Htwice. }
  intros Hk Hcase. rewrite Hsame.
  pose proof (header_nonempty q k v2 Hk) as Hne.
  unfold GetQuery.getHttpHeaders.
  rewrite bool_decide_eq_false_2 by (by rewrite Object_keys_nil).
  eexists. split; [reflexivity|].
  rewrite get_header_foldl. simpl GetQuery.headers in *.
  unfold GetQuery.Object_set in *. rewrite decide_False in * by done.
  rewrite (last_all_equal k).
  - rewrite Object_get_assoc_set. by destruct v2.
  - intros Hnil. eapply (filter_nil_not_elem_of _ _ k) in Hnil; [|done].
    apply Hnil. rewrite Object_keys_perm. apply assoc_set_names. by left.
  - apply Forall_forall. intros k' [Hlow Hin]%list_elem_of_filter.
    rewrite Object_keys_perm in Hin. apply assoc_set_names in Hin as [->|Hin]; [done|].
    by apply Hcase.
Qed.

Lemma header_last_value_wins_witness :
  let q := GetQuery.header "Accept" (GetQuery.HString "text/html")
             (GetQuery.new (DFunction HList) None) in
  ∃ hs, GetQuery.getHttpHeaders
          (GetQuery.header "Cache-control" (GetQuery.HStrings ["no-cache"; "no-store"])
             (GetQuery.header "Cache-control" (GetQuery.HString "max-age=0") q)) = Some hs ∧
        get_header "Cache-control" hs = Some "no-cache,no-store".
Proof.
  intros q.
  apply (proj2 (proj2 (header_last_value_wins q "Cache-control"
                         (GetQuery.HString "max-age=0")
                         (GetQuery.HStrings ["no-cache"; "no-store"]))));
    [discriminate|].
  intros k' [->|Hin%elem_of_nil]%elem_of_cons; [discriminate | done].
Defined.

End HeaderOverwrite.

(** ** [generateIndex] *)

Section GenerateIndex.
Import Js Http.








End GenerateIndex.

(** ** [ResourceService]: requests and the heap, whatever the answer *)

Section ServiceInvariants.
Import Js Http.

Variable svc : ResourceService.t.

Ltac unfold_ops :=
  unfold Spec.sends_only, Spec.preserves,
    ResourceService.list, ResourceService.get, ResourceService.create,
    ResourceService.update, ResourceService.patch, ResourceService.remove,
    ResourceService.search, ResourceService.upload, ResourceService.uploadFor,
    ResourceService.send, ResourceService.emit, ResourceService.resource_id,
    ResourceService.Object_assign, ResourceService.throw,
    mbind, ResourceService.M_bind, mret, ResourceService.M_ret.

Lemma append_empty (s : string) : s +:+ EmptyString = s.
Proof.
  induction s as [|c s IH]; [done|].
  change (String c s +:+ EmptyString) with (String c (s +:+ EmptyString)). by rewrite IH.
Qed.

Lemma requests_snoc (t : list ResourceService.event) (r : Request) :
  Spec.requests (t ++ [ResourceService.Sent r]) = Spec.requests t ++ [r].
Proof. unfold Spec.requests. by rewrite omap_app. Qed.

(** Materializing one record touches the new instance only. *)
Lemma instantiate_preserves (row : option obj) (st : ResourceService.state)
    (l : loc) (o : obj) :
  ResourceService.heap st !! l = Some o →
  ResourceService.heap (Spec.instantiate (ResourceService.modelClass svc) row st).2 !! l
  = Some o.
Proof.
  intros Hl.
  assert (fresh (dom (ResourceService.heap st)) ≠ l) as Hne.
  { intros Heq. apply (is_fresh (dom (ResourceService.heap st))).
    rewrite Heq. apply elem_of_dom. by eexists. }
  unfold Spec.instantiate, ResourceService.construct, ResourceService.Object_assign,
    ResourceService.get_onInstantiated, ResourceService.call_onInstantiated,
    ResourceService.throw, mbind, ResourceService.M_bind, mret, ResourceService.M_ret.
  repeat (case_match; simplify_eq; simpl in *);
    rewrite ?lookup_alter_ne, ?lookup_insert_ne by done; done.
Qed.

Lemma for_of_preserves (rows : list obj) (st : ResourceService.state) (l : loc) (o : obj) :
  ResourceService.heap st !! l = Some o →
  ResourceService.heap
    (ResourceService.for_of rows
       (λ row, Spec.instantiate (ResourceService.modelClass svc) (Some row)) st).2 !! l
  = Some o.
Proof.
  revert st. induction rows as [|row rows IH]; intros st Hl; simpl; [done|].
  unfold mbind, ResourceService.M_bind at 1.
  pose proof (instantiate_preserves (Some row) st l o Hl) as H1.
  destruct (Spec.instantiate _ (Some row) st) as [[item|e] st1]; simpl in *; [|done].
  unfold mbind, ResourceService.M_bind at 1.
  pose proof (IH st1 H1) as H2.
  by destruct (ResourceService.for_of rows _ st1) as [[items|e] st2].
Qed.

(** The request of [list] and what [list] does to the heap. *)
Lemma list_effects (params : option HttpParams) (headers : option HttpHeaders)
    (reply : ResourceService.response (option (ResourceService.ListResponse obj)))
    (st : ResourceService.state) :
  Spec.sends_only (ResourceService.list svc params headers reply) st
    {| rq_verb := GET; rq_url := ResourceService.apiUrl svc; rq_body := None;
       rq_params := params; rq_headers := headers |} ∧
  Spec.preserves (ResourceService.list svc params headers reply) st None.
Proof.
  destruct reply as [[[[rows|] meta]|]|err];
    try (split; [unfold_ops; simpl; apply requests_snoc | by unfold_ops]).
  unfold Spec.sends_only, Spec.preserves.
  rewrite (list_success svc), (generateListResponse_rows svc).
  match goal with |- context [ResourceService.for_of rows ?f ?s] =>
    destruct (for_of_extends svc rows s) as (more & Hmore & Hreq);
    pose proof (for_of_preserves rows s) as Hpres;
    destruct (ResourceService.for_of rows f s) as [[items|e] st'] end;
    simpl in *; (split; [by rewrite Hmore, requests_app, Hreq, app_nil_r, requests_snoc|]);
    intros l o _ Hl; by apply Hpres.
Qed.

Lemma get_effects (id : scalar) (params : option HttpParams) (headers : option HttpHeaders)
    (reply : ResourceService.response (option obj)) (st : ResourceService.state) :
  Spec.sends_only (ResourceService.get svc id params headers reply) st
    {| rq_verb := GET; rq_url := ResourceService.apiUrl svc +:+ "/" +:+ scalar_toString id;
       rq_body := None; rq_params := params; rq_headers := headers |} ∧
  Spec.preserves (ResourceService.get svc id params headers reply) st None.
Proof.
  destruct reply as [data|err];
    [|split; [unfold_ops; simpl; apply requests_snoc | by unfold_ops]].
  unfold Spec.sends_only, Spec.preserves. rewrite (get_instantiates svc).
  unfold mbind, ResourceService.M_bind at 1. unfold ResourceService.send, ResourceService.emit.
  unfold mbind, ResourceService.M_bind.
  match goal with |- context [Spec.instantiate ?c data ?s] =>
    destruct (instantiate_extends svc data s) as (more & Hmore & Hreq);
    pose proof (instantiate_preserves data s) as Hpres;
    destruct (Spec.instantiate c data s) as [[item|e] st'] end;
    simpl in *; (split; [by rewrite Hmore, requests_app, Hreq, app_nil_r, requests_snoc|]);
    intros l o _ Hl; by apply Hpres.
Qed.

Lemma search_effects (params : option HttpParams) (method : Call.SearchMethod)
    (resource : option loc) (headers : option HttpHeaders)
    (reply : ResourceService.response (option (ResourceService.ListResponse obj)))
    (st : ResourceService.state) :
  Spec.sends_only (ResourceService.search svc params method resource headers reply) st
    {| rq_verb := ResourceService.verb_of method;
       rq_url := ResourceService.apiUrl svc +:+ "/search";
       rq_body := if bool_decide (method = Call.MPatch)
                  then Some (from_option BodyResource BodyNull resource) else None;
       rq_params := params; rq_headers := headers |} ∧
  Spec.preserves (ResourceService.search svc params method resource headers reply) st None.
Proof.
  destruct method, reply as [[[[rows|] meta]|]|err];
    try (split; [unfold_ops; simpl; apply requests_snoc | by unfold_ops]).
  unfold Spec.sends_only, Spec.preserves.
  rewrite (search_get_success svc), (generateListResponse_rows svc).
  match goal with |- context [ResourceService.for_of rows ?f ?s] =>
    destruct (for_of_extends svc rows s) as (more & Hmore & Hreq);
    pose proof (for_of_preserves rows s) as Hpres;
    destruct (ResourceService.for_of rows f s) as [[items|e] st'] end;
    simpl in *; (split; [by rewrite Hmore, requests_app, Hreq, app_nil_r, requests_snoc|]);
    intros l o _ Hl; by apply Hpres.
Qed.

(** The identifier that [update], [patch], [remove] and [uploadFor] put
    in the URL. *)
Lemma write_effects (resource : loc) (params : option HttpParams)
    (headers : option HttpHeaders) (reply : ResourceService.response (option obj))
    (st : ResourceService.state) :
  let id := Spec.id_key st resource in
  (Spec.sends_only (ResourceService.create svc resource params headers reply) st
     {| rq_verb := POST; rq_url := ResourceService.apiUrl svc;
        rq_body := Some (BodyResource resource);
        rq_params := params; rq_headers := headers |} ∧
   Spec.preserves (ResourceService.create svc resource params headers reply) st
     (Some resource)) ∧
  (Spec.sends_only (ResourceService.update svc resource params headers reply) st
     {| rq_verb := PUT; rq_url := ResourceService.apiUrl svc +:+ "/" +:+ id;
        rq_body := Some (BodyResource resource);
        rq_params := params; rq_headers := headers |} ∧
   Spec.preserves (ResourceService.update svc resource params headers reply) st
     (Some resource)) ∧
  (Spec.sends_only (ResourceService.patch svc resource params headers reply) st
     {| rq_verb := PATCH; rq_url := ResourceService.apiUrl svc +:+ "/" +:+ id;
        rq_body := Some (BodyResource resource);
        rq_params := params; rq_headers := headers |} ∧
   Spec.preserves (ResourceService.patch svc resource params headers reply) st
     (Some resource)) ∧
  (Spec.sends_only (ResourceService.remove svc resource params headers reply) st
     {| rq_verb := DELETE; rq_url := ResourceService.apiUrl svc +:+ "/" +:+ id;
        rq_body := None; rq_params := params; rq_headers := headers |} ∧
   Spec.preserves (ResourceService.remove svc resource params headers reply) st None).
Proof.
  intros id. unfold id, Spec.id_key.
  destruct reply as [[data|]|err]; unfold_ops; simpl;
    repeat split; try apply requests_snoc; try done;
    intros l o Hne Hl; (rewrite lookup_alter_ne; [done | congruence]).
Qed.

Lemma upload_effects {K} (resource : loc) (formData : FormData)
    (params : option HttpParams) (headers : option HttpHeaders)
    (reply : ResourceService.response K) (st : ResourceService.state) :
  (Spec.sends_only (ResourceService.upload svc formData params headers reply) st
     {| rq_verb := POST; rq_url := ResourceService.apiUrl svc +:+ "/upload";
        rq_body := Some (BodyForm formData);
        rq_params := params; rq_headers := headers |} ∧
   Spec.preserves (ResourceService.upload svc formData params headers reply) st None) ∧
  (Spec.sends_only (ResourceService.uploadFor svc resource formData params headers reply) st
     {| rq_verb := POST;
        rq_url := ResourceService.apiUrl svc +:+ "/" +:+ Spec.id_key st resource +:+ "/upload";
        rq_body := Some (BodyForm formData);
        rq_params := params; rq_headers := headers |} ∧
   Spec.preserves (ResourceService.uploadFor svc resource formData params headers reply)
     st None).
Proof.
  destruct reply; unfold_ops; simpl; repeat split; try apply requests_snoc; done.
Qed.

End ServiceInvariants.

Section FalsyIdentifier.
Import Js Http.

(** C2. [findById] stores any identifier, but [get()] passes it on only
    when it is truthy: for the identifiers [0] and the empty string, the
    builder, whatever modifiers were applied to it, calls the bound [get]
    of the service with [(params, headers)], so that the delegate is not
    given the identifier. [get] of the service itself, called with such
    an identifier, requests [apiUrl/<id>] as for any other. *)
Theorem findById_falsy_id_is_not_passed (svc : ResourceService.t) (i : scalar) :
  let q := ResourceService.findById svc i in
  (scalar_truthy i = false ↔ i = Num 0 ∨ i = Str EmptyString) ∧
  GetQuery.id q = Some i ∧
  GetQuery.getHandler q = DFunction HGet ∧
  (scalar_truthy i = false →
   ∀ q', GetQuery.id q' = GetQuery.id q → GetQuery.getHandler q' = GetQuery.getHandler q →
     GetQuery.get q' =
       {| Call.callee := DFunction HGet;
          Call.args := [Call.AParams (GetQuery.getHttpParams q');
                        Call.of_headers (GetQuery.getHttpHeaders q')] |} ∧
     Call.AScalar i ∉ Call.args (GetQuery.get q')) ∧
  (∀ params headers reply st,
     Spec.sends_only (ResourceService.get svc i params headers reply) st
       {| rq_verb := GET; rq_url := ResourceService.apiUrl svc +:+ "/" +:+ scalar_toString i;
          rq_body := None; rq_params := params; rq_headers := headers |}).
Proof.
  intros q. split; [|split; [reflexivity|split; [reflexivity|split]]].
  - destruct i as [n|s]; simpl.
    + rewrite negb_false_iff, Z.eqb_eq. split; [by intros ->; left|].
      intros [[= ->]|[=]]. reflexivity.
    + rewrite negb_false_iff, bool_decide_eq_true. split; [by intros ->; right|].
      intros [[=]|[= ->]]. reflexivity.
  - intros Hfalsy q' Hid Hh. unfold GetQuery.get. rewrite Hid, Hh. simpl. rewrite Hfalsy.
    split; [reflexivity|].
    simpl. intros Hin.
    apply elem_of_cons in Hin as [[=]|Hin].
    apply elem_of_cons in Hin as [Hin|Hin]; [|by apply elem_of_nil in Hin].
    by destruct (GetQuery.getHttpHeaders q').
  - intros params headers reply st. apply get_effects.
Qed.

(** [findById(0)] with two selected fields: the call made by [get()]
    has the parameters and no identifier, and [get(0)] of the service
    requests [/user/0]. *)
Lemma findById_falsy_id_is_not_passed_witness :
  let q' := GetQuery.only ["id"; "name"] (ResourceService.findById Sample.userService (Num 0)) in
  GetQuery.get q' =
    {| Call.callee := DFunction HGet;
       Call.args := [Call.AParams [(DString "only", "id,name")]; Call.ANull] |} ∧
  Spec.requests (ResourceService.trace
    (ResourceService.get Sample.userService (Num 0) None None
       (ResourceService.Success None) Sample.empty_state).2) =
    [{| rq_verb := GET; rq_url := "/user/0"; rq_body := None;
        rq_params := None; rq_headers := None |}].
Proof.
  intros q'.
  pose proof (findById_falsy_id_is_not_passed Sample.userService (Num 0))
    as (_ & _ & _ & Hcall & Hsend).
  split.
  - exact (proj1 (Hcall eq_refl q' eq_refl eq_refl)).
  - exact (Hsend None None (ResourceService.Success None) Sample.empty_state).
Defined.

End FalsyIdentifier.

Section ServiceProperties.
Import Js Http.

(** X5. For a service constructed after [setBaseUrl(baseUrl)]: whatever
    the transport answers, and also when the success callback throws,
    every canonical operation sends exactly one request, to a URL that
    starts with [baseUrl] followed by the model's base path. *)
Theorem every_operation_sends_one_request (baseUrl : string)
    (config : ResourceConfigService.t)
    (c : ResourceService.ModelClass) (params : option HttpParams)
    (headers : option HttpHeaders) (st : ResourceService.state) :
  let svc := ResourceConfigService.inject (ResourceConfigService.setBaseUrl baseUrl config) c in
  let one {A} (m : ResourceService.M A) :=
    ∃ r suffix,
      Spec.sends_only m st r ∧
      rq_url r = (baseUrl +:+ ResourceService.basePath c) +:+ suffix in
  (∀ reply, one (ResourceService.list svc params headers reply)) ∧
  (∀ id reply, one (ResourceService.get svc id params headers reply)) ∧
  (∀ resource reply,
     one (ResourceService.create svc resource params headers reply) ∧
     one (ResourceService.update svc resource params headers reply) ∧
     one (ResourceService.patch svc resource params headers reply) ∧
     one (ResourceService.remove svc resource params headers reply)) ∧
  (∀ method resource reply,
     one (ResourceService.search svc params method resource headers reply)) ∧
  (∀ (K : Type) formData (reply : ResourceService.response K),
     one (ResourceService.upload svc formData params headers reply) ∧
     ∀ resource,
       one (ResourceService.uploadFor svc resource formData params headers reply)).
Proof.
  intros svc one. unfold one. repeat split; intros.
  - eexists _, EmptyString. split; [apply list_effects|]. simpl. by rewrite append_empty.
  - eexists _, _. split; [apply get_effects|]. reflexivity.
  - eexists _, EmptyString.
    split; [apply (write_effects svc resource params headers reply st)|].
    simpl. by rewrite append_empty.
  - eexists _, _.
    split; [apply (write_effects svc resource params headers reply st)|]. reflexivity.
  - eexists _, _.
    split; [apply (write_effects svc resource params headers reply st)|]. reflexivity.
  - eexists _, _.
    split; [apply (write_effects svc resource params headers reply st)|]. reflexivity.
  - eexists _, _. split; [apply search_effects|]. reflexivity.
  - eexists _, _.
    split; [apply (upload_effects svc 1%positive formData params headers reply st)|].
    reflexivity.
  - eexists _, _.
    split; [apply (upload_effects svc resource formData params headers reply st)|].
    reflexivity.
Qed.

(** X6. Whatever the transport answers, no operation writes to a
    resource or instance that existed before the call, except that
    [create], [update] and [patch] may write to the resource they were
    given; [list], [get], [search], [remove] and the uploads write to
    none. This is about the objects of the heap, for a model class whose
    [onInstantiated] touches the fields of its own instance only; the
    envelope of a list answer, whose [data] is replaced in place, is not
    one of them. *)
Theorem operations_preserve_existing_objects (svc : ResourceService.t)
    (params : option HttpParams) (headers : option HttpHeaders)
    (st : ResourceService.state) :
  (∀ reply, Spec.preserves (ResourceService.list svc params headers reply) st None) ∧
  (∀ id reply, Spec.preserves (ResourceService.get svc id params headers reply) st None) ∧
  (∀ method resource reply,
     Spec.preserves (ResourceService.search svc params method resource headers reply)
       st None) ∧
  (∀ resource reply,
     Spec.preserves (ResourceService.create svc resource params headers reply) st
       (Some resource) ∧
     Spec.preserves (ResourceService.update svc resource params headers reply) st
       (Some resource) ∧
     Spec.preserves (ResourceService.patch svc resource params headers reply) st
       (Some resource) ∧
     Spec.preserves (ResourceService.remove svc resource params headers reply) st None) ∧
  (∀ (K : Type) formData (reply : ResourceService.response K),
     Spec.preserves (ResourceService.upload svc formData params headers reply) st None ∧
     ∀ resource,
       Spec.preserves (ResourceService.uploadFor svc resource formData params headers reply)
         st None).
Proof.
  repeat split; intros.
  - apply list_effects.
  - apply get_effects.
  - apply search_effects.
  - apply (write_effects svc resource params headers reply st).
  - apply (write_effects svc resource params headers reply st).
  - apply (write_effects svc resource params headers reply st).
  - apply (write_effects svc resource params headers reply st).
  - apply (upload_effects svc 1%positive formData params headers reply st).
  - apply (upload_effects svc resource formData params headers reply st).
Qed.



(** X8. After [create] has copied an answer that carries an [id] onto
    the resource, [update] of that resource goes to [apiUrl/<that id>],
    whatever identifier the resource had before. *)
Theorem create_then_update_uses_returned_id (svc : ResourceService.t) (resource : loc)
    (params params' : option HttpParams) (headers headers' : option HttpHeaders)
    (o body : obj) (v : val) (reply : ResourceService.response (option obj))
    (st : ResourceService.state) :
  ResourceService.heap st !! resource = Some o → body !! "id" = Some v →
  let created := (ResourceService.create svc resource params headers
                    (ResourceService.Success (Some body)) st).2 in
  Spec.sends_only (ResourceService.update svc resource params' headers' reply) created
    {| rq_verb := PUT; rq_url := ResourceService.apiUrl svc +:+ "/" +:+ val_toString v;
       rq_body := Some (BodyResource resource);
       rq_params := params'; rq_headers := headers' |}.
Proof.
  intros Hr Hid created.
  pose proof (write_effects svc resource params' headers' reply created)
    as (_ & [Hsend _] & _).
  assert (Spec.id_key created resource = val_toString v) as <-; [|exact Hsend].
  unfold Spec.id_key, created. simpl.
  rewrite lookup_alter_eq, Hr. simpl.
  by rewrite (lookup_union_Some_l _ _ _ _ Hid).
Qed.

Lemma create_then_update_uses_returned_id_witness :
  let st := {| ResourceService.heap := {[ 1%positive := {[ "name" := VStr "abc" ]} ]};
               ResourceService.trace := [] |} in
  let created := (ResourceService.create Sample.userService 1%positive None None
                    (ResourceService.Success (Some {[ "id" := VNum 123 ]})) st).2 in
  Spec.sends_only
    (ResourceService.update Sample.userService 1%positive None None
       (ResourceService.Success None)) created
    {| rq_verb := PUT; rq_url := "/user/123"; rq_body := Some (BodyResource 1%positive);
       rq_params := None; rq_headers := None |}.
Proof.
  intros st created.
  apply (create_then_update_uses_returned_id Sample.userService 1%positive None None None None
           {[ "name" := VStr "abc" ]} {[ "id" := VNum 123 ]} (VNum 123)
           (ResourceService.Success None) st); reflexivity.
Defined.

(** A successful bulk [search] with [patch] or [delete] ignores the
    answer's body: it resolves with [undefined] and instantiates nothing.
    The PATCH carries the given resource as body, the DELETE no body. *)
Theorem search_patch_and_delete_resolve_undefined (svc : ResourceService.t)
    (params : option HttpParams) (resource : option loc) (headers : option HttpHeaders)
    (body : option (ResourceService.ListResponse obj)) (st : ResourceService.state) :
  ResourceService.search svc params Call.MPatch resource headers
    (ResourceService.Success body) st =
    (ResourceService.Ok (ResourceService.Resolved None),
     {| ResourceService.heap := ResourceService.heap st;
        ResourceService.trace := ResourceService.trace st ++
          [ResourceService.Sent
             {| rq_verb := PATCH; rq_url := ResourceService.apiUrl svc +:+ "/search";
                rq_body := Some (from_option BodyResource BodyNull resource);
                rq_params := params; rq_headers := headers |}] |}) ∧
  ResourceService.search svc params Call.MDelete resource headers
    (ResourceService.Success body) st =
    (ResourceService.Ok (ResourceService.Resolved None),
     {| ResourceService.heap := ResourceService.heap st;
        ResourceService.trace := ResourceService.trace st ++
          [ResourceService.Sent
             {| rq_verb := DELETE; rq_url := ResourceService.apiUrl svc +:+ "/search";
                rq_body := None; rq_params := params; rq_headers := headers |}] |}).
Proof. split; reflexivity. Qed.

(** X9. The edge cases of a list answer. Without [data] the envelope is
    resolved as it came; with an empty [data] it is resolved with an
    empty array; in both cases nothing is instantiated and [meta] is kept.
    A [null] answer makes the success callback throw after the request
    was sent, so the promise is never settled. *)
Theorem list_answer_edge_cases (svc : ResourceService.t) (params : option HttpParams)
    (headers : option HttpHeaders) (meta : option obj) (st : ResourceService.state) :
  let sent :=
    {| ResourceService.heap := ResourceService.heap st;
       ResourceService.trace := ResourceService.trace st ++
         [ResourceService.Sent
            {| rq_verb := GET; rq_url := ResourceService.apiUrl svc; rq_body := None;
               rq_params := params; rq_headers := headers |}] |} in
  ResourceService.list svc params headers
    (ResourceService.Success
       (Some {| ResourceService.data := None; ResourceService.meta := meta |})) st =
    (ResourceService.Ok (ResourceService.Resolved
       {| ResourceService.data := None; ResourceService.meta := meta |}), sent) ∧
  ResourceService.list svc params headers
    (ResourceService.Success
       (Some {| ResourceService.data := Some []; ResourceService.meta := meta |})) st =
    (ResourceService.Ok (ResourceService.Resolved
       {| ResourceService.data := Some []; ResourceService.meta := meta |}), sent) ∧
  ∃ e, ResourceService.list svc params headers (ResourceService.Success None) st =
       (ResourceService.Throw e, sent).
Proof. intros sent. split; [reflexivity|]. split; [reflexivity|]. by eexists. Qed.

End ServiceProperties.

(** ** From a builder to the request *)

Section BuilderToRequest.
Import Js Http.

Variable svc : ResourceService.t.

Lemma bind_mret_state {A B} (m : ResourceService.M A) (f : A → B)
    (st : ResourceService.state) :
  ((a ← m; mret (f a)) st).2 = (m st).2.
Proof.
  unfold mbind, ResourceService.M_bind, mret, ResourceService.M_ret.
  by destruct (m st) as [[a|e] st'].
Qed.

Lemma sends_only_bind_mret {A B} (m : ResourceService.M A) (f : A → B)
    (st : ResourceService.state) (r : Request) :
  Spec.sends_only m st r → Spec.sends_only (a ← m; mret (f a)) st r.
Proof. unfold Spec.sends_only. by rewrite bind_mret_state. Qed.

(** The request behind [get()] of a builder bound to [list] or [get]. *)
Lemma invoke_GetQuery (q : GetQuery.t) (tr : ResourceService.Transport) :
  (GetQuery.getHandler q = DFunction HList → GetQuery.id q = None →
   ∃ m, ResourceService.invoke svc (GetQuery.get q) tr = Some m ∧
        ∀ st, Spec.sends_only m st
                {| rq_verb := GET; rq_url := ResourceService.apiUrl svc; rq_body := None;
                   rq_params := Some (GetQuery.getHttpParams q);
                   rq_headers := GetQuery.getHttpHeaders q |}) ∧
  (∀ i, GetQuery.getHandler q = DFunction HGet → GetQuery.id q = Some i →
        scalar_truthy i = true →
   ∃ m, ResourceService.invoke svc (GetQuery.get q) tr = Some m ∧
        ∀ st, Spec.sends_only m st
                {| rq_verb := GET;
                   rq_url := ResourceService.apiUrl svc +:+ "/" +:+ scalar_toString i;
                   rq_body := None;
                   rq_params := Some (GetQuery.getHttpParams q);
                   rq_headers := GetQuery.getHttpHeaders q |}).
Proof.
  unfold ResourceService.invoke, GetQuery.get. split.
  - intros -> ->. simpl. destruct (GetQuery.getHttpHeaders q); simpl;
      (eexists; split; [reflexivity|]); intros st;
      apply sends_only_bind_mret, list_effects.
  - intros i -> -> ->. simpl. destruct (GetQuery.getHttpHeaders q); simpl;
      (eexists; split; [reflexivity|]); intros st;
      apply sends_only_bind_mret, get_effects.
Qed.

(** The parameters a search query passes on: the read parameters, then
    each filter [set] in order. *)
Lemma invoke_SearchQuery (sq : SearchQuery.t) (tr : ResourceService.Transport) :
  SearchQuery.searchHandler sq = DFunction HSearch →
  let params := foldl (λ ps kv, set kv.1 kv.2 ps)
                  (GetQuery.getHttpParams (SearchQuery.base sq)) (Spec.filter_pairs sq) in
  let request verb body :=
    {| rq_verb := verb; rq_url := ResourceService.apiUrl svc +:+ "/search";
       rq_body := body; rq_params := Some params;
       rq_headers := GetQuery.getHttpHeaders (SearchQuery.base sq) |} in
  (∃ m, ResourceService.invoke svc (SearchQuery.get sq) tr = Some m ∧
        ∀ st, Spec.sends_only m st (request GET None)) ∧
  (∃ m, ResourceService.invoke svc (SearchQuery.remove sq) tr = Some m ∧
        ∀ st, Spec.sends_only m st (request DELETE None)) ∧
  (∀ resource,
     ∃ m, ResourceService.invoke svc (SearchQuery.patch resource sq) tr = Some m ∧
          ∀ st, Spec.sends_only m st (request PATCH (Some (BodyResource resource)))).
Proof.
  intros Hh. cbv zeta. unfold Spec.filter_pairs.
  rewrite <- foldl_set_searchParams.
  unfold ResourceService.invoke, SearchQuery.get, SearchQuery.remove, SearchQuery.patch.
  simpl. rewrite Hh. simpl.
  destruct (GetQuery.getHttpHeaders (SearchQuery.base sq)); simpl;
    repeat split; intros; (eexists; split; [reflexivity|]); intros st;
    apply sends_only_bind_mret, search_effects.
Qed.

(** X10. [get()] on a builder made by [findAll] sends one GET to
    [apiUrl], and on a builder made by [findById] with a truthy
    identifier one GET to [apiUrl/<id>]; either carries the serialized
    parameters (an [HttpParams] even when empty) and the serialized
    headers ([null] when none was set). *)
Theorem GetQuery_get_sends_the_built_request (q : GetQuery.t)
    (tr : ResourceService.Transport) (st : ResourceService.state) :
  (GetQuery.getHandler q = DFunction HList → GetQuery.id q = None →
   ∃ m, ResourceService.invoke svc (GetQuery.get q) tr = Some m ∧
        Spec.sends_only m st
          {| rq_verb := GET; rq_url := ResourceService.apiUrl svc; rq_body := None;
             rq_params := Some (GetQuery.getHttpParams q);
             rq_headers := GetQuery.getHttpHeaders q |}) ∧
  (∀ i, GetQuery.getHandler q = DFunction HGet → GetQuery.id q = Some i →
        scalar_truthy i = true →
   ∃ m, ResourceService.invoke svc (GetQuery.get q) tr = Some m ∧
        Spec.sends_only m st
          {| rq_verb := GET;
             rq_url := ResourceService.apiUrl svc +:+ "/" +:+ scalar_toString i;
             rq_body := None;
             rq_params := Some (GetQuery.getHttpParams q);
             rq_headers := GetQuery.getHttpHeaders q |}).
Proof.
  destruct (invoke_GetQuery q tr) as [Hlist Hget]. split.
  - intros H1 H2. destruct (Hlist H1 H2) as (m & Hm & Hsend). by exists m.
  - intros i H1 H2 H3. destruct (Hget i H1 H2 H3) as (m & Hm & Hsend). by exists m.
Qed.

(** X11. On a search query whose handler is the bound [search], [get],
    [remove] and [patch] each send one request to [apiUrl/search], with
    the verb GET, DELETE and PATCH; all three carry the same parameters
    (the read parameters, then each filter set in order) and the same
    headers, and only the PATCH has a body, the given resource. *)
Theorem SearchQuery_terminals_send_the_built_request (sq : SearchQuery.t)
    (tr : ResourceService.Transport) (st : ResourceService.state) :
  SearchQuery.searchHandler sq = DFunction HSearch →
  let params := foldl (λ ps kv, set kv.1 kv.2 ps)
                  (GetQuery.getHttpParams (SearchQuery.base sq)) (Spec.filter_pairs sq) in
  let request verb body :=
    {| rq_verb := verb; rq_url := ResourceService.apiUrl svc +:+ "/search";
       rq_body := body; rq_params := Some params;
       rq_headers := GetQuery.getHttpHeaders (SearchQuery.base sq) |} in
  (∃ m, ResourceService.invoke svc (SearchQuery.get sq) tr = Some m ∧
        Spec.sends_only m st (request GET None)) ∧
  (∃ m, ResourceService.invoke svc (SearchQuery.remove sq) tr = Some m ∧
        Spec.sends_only m st (request DELETE None)) ∧
  (∀ resource,
     ∃ m, ResourceService.invoke svc (SearchQuery.patch resource sq) tr = Some m ∧
          Spec.sends_only m st (request PATCH (Some (BodyResource resource)))).
Proof.
  intros Hh params request.
  destruct (invoke_SearchQuery sq tr Hh) as ((m1 & H1 & S1) & (m2 & H2 & S2) & H3).
  split; [by exists m1|]. split; [by exists m2|].
  intros resource. destruct (H3 resource) as (m3 & Hm3 & S3). by exists m3.
Qed.

End BuilderToRequest.

Section BuilderToRequestExamples.
Import Js Http.

Lemma GetQuery_get_sends_the_built_request_witness :
  let q := GetQuery.limit 100 (GetQuery.page 2 (ResourceService.findAll Sample.userService)) in
  ∃ m, ResourceService.invoke Sample.userService (GetQuery.get q)
         {| ResourceService.record_reply := ResourceService.Success None;
            ResourceService.list_reply := ResourceService.Success None |} = Some m ∧
       Spec.sends_only m Sample.empty_state
         {| rq_verb := GET; rq_url := "/user"; rq_body := None;
            rq_params := Some [(DString "limit", "100"); (DString "page", "2")];
            rq_headers := None |}.
Proof.
  intros q.
  apply (proj1 (GetQuery_get_sends_the_built_request Sample.userService q _
                  Sample.empty_state)); reflexivity.
Defined.

Lemma SearchQuery_terminals_send_the_built_request_witness :
  let sq := SearchQuery.andWhere (DString "name") (DString "abc")
              (SearchQuery.new (DString "id") (DArray [Str "a1"; Str "a2"; Str "a3"])
                 (DFunction HSearch)) in
  ∃ m, ResourceService.invoke Sample.userService (SearchQuery.remove sq)
         {| ResourceService.record_reply := ResourceService.Success None;
            ResourceService.list_reply := ResourceService.Success None |} = Some m ∧
       Spec.sends_only m Sample.empty_state
         {| rq_verb := DELETE; rq_url := "/user/search"; rq_body := None;
            rq_params := Some [(DString "id", "a1,a2,a3"); (DString "name", "abc")];
            rq_headers := None |}.
Proof.
  intros sq.
  apply (proj1 (proj2 (SearchQuery_terminals_send_the_built_request Sample.userService sq _
                         Sample.empty_state eq_refl))).
Defined.

End BuilderToRequestExamples.

(** ** The raw methods *)

Section RawMethods.
Import Js Http.

Lemma sends_only_unique {A} (m : ResourceService.M A) (st : ResourceService.state)
    (r1 r2 : Request) :
  Spec.sends_only m st r1 → Spec.sends_only m st r2 → r1 = r2.
Proof.
  unfold Spec.sends_only. intros -> Heq.
  apply app_inj_tail in Heq as [_ Heq]. done.
Qed.

(** X13. A raw call and the canonical operation meet at the same URL:
    [rawGet()] at that of [list], [rawGet(<id>)] at that of [get(id)] and
    [rawDelete(<id>)] at that of [remove], for an identifier that does not
    print as the empty string. For one that does, [get] asks for
    [apiUrl/] while the raw method, given an empty path, adds no slash.
    Every raw method passes its options on and returns the transport's
    answer as it is. *)
Theorem raw_paths_and_canonical_urls {A : Type} (svc : ResourceService.t)
    (options : option ResourceService.RawOptions) (raw_reply : ResourceService.response A)
    (params : option HttpParams) (headers : option HttpHeaders)
    (st : ResourceService.state) :
  let at_url_of (c : ResourceService.RawCall * ResourceService.promise A) :=
    {| rq_verb := ResourceService.raw_verb c.1; rq_url := ResourceService.raw_url c.1;
       rq_body := None; rq_params := params; rq_headers := headers |} in
  (∀ reply,
     Spec.sends_only (ResourceService.list svc params headers reply) st
       (at_url_of (ResourceService.rawGet svc EmptyString options raw_reply))) ∧
  (∀ id reply, scalar_toString id ≠ EmptyString →
     Spec.sends_only (ResourceService.get svc id params headers reply) st
       (at_url_of (ResourceService.rawGet svc (scalar_toString id) options raw_reply))) ∧
  (∀ resource reply, Spec.id_key st resource ≠ EmptyString →
     Spec.sends_only (ResourceService.remove svc resource params headers reply) st
       (at_url_of (ResourceService.rawDelete svc (Spec.id_key st resource) options raw_reply))) ∧
  (∀ id reply, scalar_toString id = EmptyString →
     ¬ Spec.sends_only (ResourceService.get svc id params headers reply) st
         (at_url_of (ResourceService.rawGet svc (scalar_toString id) options raw_reply))) ∧
  (∀ path data,
     let calls := [ResourceService.rawGet svc path options raw_reply;
                   ResourceService.rawPost svc path data options raw_reply;
                   ResourceService.rawPut svc path data options raw_reply;
                   ResourceService.rawPatch svc path data options raw_reply;
                   ResourceService.rawDelete svc path options raw_reply] in
     Forall (λ c, ResourceService.raw_options c.1 = options ∧
                  c.2 = match raw_reply with
                        | ResourceService.Success body => ResourceService.Resolved body
                        | ResourceService.Failure err => ResourceService.Rejected err
                        end) calls).
Proof.
  intros at_url_of. unfold at_url_of. split; [|split; [|split; [|split]]].
  - intros reply. simpl. rewrite append_empty. apply list_effects.
  - intros id reply Hid. unfold ResourceService.rawGet.
    rewrite bool_decide_eq_false_2 by done. apply get_effects.
  - intros resource reply Hid. unfold ResourceService.rawDelete.
    rewrite bool_decide_eq_false_2 by done.
    apply (write_effects svc resource params headers reply st).
  - intros id reply Hid Hsend.
    pose proof (sends_only_unique _ _ _ _ Hsend
                  (proj1 (get_effects svc id params headers reply st))) as Heq.
    unfold ResourceService.rawGet in Heq.
    rewrite bool_decide_eq_true_2 in Heq by done. simpl in Heq.
    injection Heq as Heq. apply String.app_inj in Heq. rewrite Hid in Heq. discriminate.
  - intros path data. cbv zeta.
    repeat constructor; simpl; by destruct raw_reply.
Qed.

Lemma raw_paths_and_canonical_urls_witness :
  Spec.sends_only
    (ResourceService.get Sample.userService (Num 123) None None
       (ResourceService.Success None)) Sample.empty_state
    {| rq_verb := GET; rq_url := "/user/123";
       rq_body := None; rq_params := None; rq_headers := None |} ∧
  ¬ Spec.sends_only
      (ResourceService.get Sample.userService (Str EmptyString) None None
         (ResourceService.Success None)) Sample.empty_state
      {| rq_verb := GET; rq_url := "/user";
         rq_body := None; rq_params := None; rq_headers := None |}.
Proof.
  split.
  - apply (proj1 (proj2 (raw_paths_and_canonical_urls (A:=unit) Sample.userService None
                           (ResourceService.Success ()) None None Sample.empty_state))
             (Num 123) (ResourceService.Success None)).
    discriminate.
  - apply (proj1 (proj2 (proj2 (proj2 (raw_paths_and_canonical_urls (A:=unit)
                           Sample.userService None
                           (ResourceService.Success ()) None None Sample.empty_state))))
             (Str EmptyString) (ResourceService.Success None)).
    reflexivity.
Defined.

End RawMethods.

(** ** A raw record that carries a field [onInstantiated] *)

Section ShadowedHook.
Import Js Http.

(** X14. When the raw record of [get] carries a field [onInstantiated],
    that field decides, not the class: a falsy value makes [get] resolve
    with the instance without any hook invocation; a truthy value makes
    the success callback throw after the request was sent, so that the
    promise is never settled. *)
Theorem get_with_onInstantiated_field (svc : ResourceService.t) (id : scalar)
    (params : option HttpParams) (headers : option HttpHeaders) (raw : obj) (v : val)
    (st : ResourceService.state) :
  raw !! "onInstantiated" = Some v →
  let item := fresh (dom (ResourceService.heap st)) in
  let after :=
    {| ResourceService.heap :=
         <[item := Spec.assigned (ResourceService.modelClass svc) raw]> (ResourceService.heap st);
       ResourceService.trace := ResourceService.trace st ++
         [ResourceService.Sent
            {| rq_verb := GET;
               rq_url := ResourceService.apiUrl svc +:+ "/" +:+ scalar_toString id;
               rq_body := None; rq_params := params; rq_headers := headers |}] |} in
  (truthy v = false →
     ResourceService.get svc id params headers (ResourceService.Success (Some raw)) st =
       (ResourceService.Ok (ResourceService.Resolved item), after)) ∧
  (truthy v = true →
     ∃ e, ResourceService.get svc id params headers (ResourceService.Success (Some raw)) st =
          (ResourceService.Throw e, after)).
Proof.
  intros Hraw item after.
  assert (Spec.assigned (ResourceService.modelClass svc) raw !! "onInstantiated" = Some v)
    as Hshadow by (by apply lookup_union_Some_l).
  unfold ResourceService.get, ResourceService.send, ResourceService.emit,
    ResourceService.construct, ResourceService.Object_assign,
    ResourceService.get_onInstantiated, mbind, ResourceService.M_bind, mret,
    ResourceService.M_ret.
  simpl. fold item.
  rewrite alter_insert_eq, lookup_insert_eq. simpl.
  fold (Spec.assigned (ResourceService.modelClass svc) raw). rewrite Hshadow. simpl.
  split; intros ->; [reflexivity | by eexists].
Qed.

Lemma get_with_onInstantiated_field_witness :
  let raw : obj := {[ "id" := VNum 123; "onInstantiated" := VNum 1 ]} in
  ∃ e st', ResourceService.get Sample.userService (Num 123) None None
             (ResourceService.Success (Some raw)) Sample.empty_state =
           (ResourceService.Throw e, st').
Proof.
  intros raw.
  destruct (proj2 (get_with_onInstantiated_field Sample.userService (Num 123) None None
                     raw (VNum 1) Sample.empty_state eq_refl) eq_refl) as [e He].
  eexists e, _. exact He.
Defined.

End ShadowedHook.
